(** * Schema inference of pulumi-go-provider: [infer/schema.go]

    A shallow embedding of the type-to-schema walker.  Go's [reflect.Type]
    values become a finite tree [rtype]; what reflection reads off the method
    sets of the types (interface satisfaction, the element type an output
    reports, struct-tag parsing, tokens, annotations) is gathered in a record
    [TypeEnv] that every function receives.  A Go function returning several
    values returns the same tuple here; a panic and an unbounded recursion are
    explicit outcomes. *)

From Stdlib Require Import String Ascii.
From stdpp Require Import base option list strings gmap.

Set Warnings "-register-all".

Local Open Scope string_scope.
Local Open Scope list_scope.

(** ** Go strings: the functions of package [strings] the file calls *)

Module strings.

(** [strings.Split(s, sep)] for a one-byte separator (the file only splits on
    ":" and on "@"): a string without the separator is returned whole, in a
    list of one. *)
Fixpoint Split (s : string) (sep : ascii) : list string :=
  match s with
  | EmptyString => [EmptyString]
  | String c rest =>
      if Ascii.eqb c sep then EmptyString :: Split rest sep
      else match Split rest sep with
           | seg :: segs => String c seg :: segs
           | [] => [String c EmptyString]
           end
  end.

(** [strings.HasSuffix(s, suffix)]. *)
Definition HasSuffix (s suffix : string) : bool :=
  let n := String.length s in
  let k := String.length suffix in
  (k <=? n)%nat && String.eqb (String.substring (n - k) k s) suffix.

(** [strings.TrimSuffix(s, suffix)]. *)
Definition TrimSuffix (s suffix : string) : string :=
  if HasSuffix s suffix
  then String.substring 0 (String.length s - String.length suffix) s
  else s.

(** Number of occurrences of a byte, to speak about separators. *)
Fixpoint Count (s : string) (c : ascii) : nat :=
  match s with
  | EmptyString => 0
  | String d rest => (if Ascii.eqb d c then 1 else 0) + Count rest c
  end.

End strings.

(** ** reflect: kinds and types *)

(** [reflect.Kind]. *)
Inductive Kind : Set :=
| Invalid | Bool
| Int | Int8 | Int16 | Int32 | Int64
| Uint | Uint8 | Uint16 | Uint32 | Uint64 | Uintptr
| Float32 | Float64 | Complex64 | Complex128
| Array | Chan | Func | Interface | Map | Pointer | Slice | String_ | Struct
| UnsafePointer.

#[global] Instance Kind_eq_dec : EqDecision Kind.
Proof. solve_decision. Defined.

(** The kinds of the types that have no element type the walker looks at. *)
Inductive ScalarKind : Set :=
| KBool
| KInt | KInt8 | KInt16 | KInt32 | KInt64
| KUint | KUint8 | KUint16 | KUint32 | KUint64 | KUintptr
| KFloat32 | KFloat64 | KComplex64 | KComplex128
| KChan | KFunc | KInterface | KString | KUnsafePointer.

Definition kindOfScalar (k : ScalarKind) : Kind :=
  match k with
  | KBool => Bool
  | KInt => Int | KInt8 => Int8 | KInt16 => Int16 | KInt32 => Int32 | KInt64 => Int64
  | KUint => Uint | KUint8 => Uint8 | KUint16 => Uint16 | KUint32 => Uint32
  | KUint64 => Uint64 | KUintptr => Uintptr
  | KFloat32 => Float32 | KFloat64 => Float64
  | KComplex64 => Complex64 | KComplex128 => Complex128
  | KChan => Chan | KFunc => Func | KInterface => Interface | KString => String_
  | KUnsafePointer => UnsafePointer
  end.

(** [reflect.Type]: a type is its kind, its name (empty for an unnamed
    composite) and what [Elem], [Key] and [Field] give.  A struct field is
    [reflect.StructField]: its name, its raw tag and its type. *)
Inductive rtype : Type :=
| Scalar (name : string) (k : ScalarKind)
| PointerTo (elem : rtype)
| SliceOf (name : string) (elem : rtype)
| ArrayOf (name : string) (len : nat) (elem : rtype)
| MapOf (name : string) (key elem : rtype)
| StructOf (name : string) (fields : list StructField)
with StructField : Type :=
| mkField (Name Tag : string) (Type_ : rtype).

Definition fieldName (f : StructField) : string := let 'mkField n _ _ := f in n.
Definition fieldTag (f : StructField) : string := let 'mkField _ tg _ := f in tg.
Definition fieldType (f : StructField) : rtype := let 'mkField _ _ t := f in t.

Module reflect.

(** [t.Kind()]. *)
Definition Kind (t : rtype) : Kind :=
  match t with
  | Scalar _ k => kindOfScalar k
  | PointerTo _ => Pointer
  | SliceOf _ _ => Slice
  | ArrayOf _ _ _ => Array
  | MapOf _ _ _ => Map
  | StructOf _ _ => Struct
  end.

(** [t.Name()]: a pointer type has no name. *)
Definition Name (t : rtype) : string :=
  match t with
  | Scalar n _ | SliceOf n _ | ArrayOf n _ _ | MapOf n _ _ | StructOf n _ => n
  | PointerTo _ => ""
  end.

End reflect.

(** The loop [for t.Kind() == reflect.Pointer { t = t.Elem() }], which four
    functions of the file start with. *)
Fixpoint stripPointers (t : rtype) : rtype :=
  match t with
  | PointerTo elem => stripPointers elem
  | _ => t
  end.

(** ** Outcomes and errors *)

(** What stops a call short of returning. *)
Inductive panic : Type :=
| AssertFailed (format arg : string)   (* contract.Assertf *)
| NilType                              (* a method called on a nil reflect.Type *)
| BadAssertion (t : rtype)             (* x.(I) on a value that is not an I *)
| NoSuchResult (t : rtype)             (* Type.Out(0) of a method without results *)
| NotAStruct (t : rtype)               (* NumField of a non-struct type *)
| NoElem (t : rtype).                  (* Elem or Key of a type that has none *)

Inductive outcome (A : Type) : Type :=
| Returns (a : A)
| Panics (p : panic)
| OutOfFuel.
Arguments Returns {A} a.
Arguments Panics {A} p.
Arguments OutOfFuel {A}.

(** Sequencing: the first panic (or exhaustion) ends the call.  Written
    [x ← m; k] below. *)
#[global] Instance outcome_bind : MBind outcome := fun A B k m =>
  match m with
  | Returns a => k a
  | Panics p => Panics p
  | OutOfFuel => OutOfFuel
  end.

(** Go's [error] values.  The errors the file builds with [fmt.Errorf] are
    constructors holding the arguments of the format; [Foreign] is an error
    that a collaborator returned. *)
Inductive error : Type :=
| Foreign (msg : string)
| MapKeyError (key : rtype)                     (* "map keys must be strings, found %s" *)
| UnsupportedKindError (t : rtype)              (* "unknown type: '%s'" *)
| InputSuffixError (name : string)              (* "%v is an input type, but does not end in [Input]" *)
| InputMethodError (name T : string)            (* "... does not have a To%vOutput method" *)
| OutputContractError (out : option rtype) (T name : string) (* "return type %s of method To%vOutput ..." *)
| MissingExternalTypeError (t : rtype)          (* "missing type= tag on foreign resource %s" *)
| InvalidField (field : string) (typ : rtype) (cause : error)      (* "invalid fields '%s' on '%s': %w" *)
| InvalidType (ft typ : rtype) (field : string) (cause : error)    (* "invalid type '%s' on '%s.%s': %w" *)
| OutputTypeError (o : rtype) (cause : error)   (* "could not serialize output type %T: %w" *)
| InputTypeError (i : rtype) (cause : error).   (* "could not serialize input type %T: %w" *)

(** ** Schema values: [schema.TypeSpec], [schema.PropertySpec], [schema.ResourceSpec] *)

Inductive TypeSpec : Type :=
| mkTypeSpec (Type_ Ref : string) (Plain : bool)
             (Items AdditionalProperties : option TypeSpec).

Module TypeSpec.
Definition Type_ (s : TypeSpec) : string := let 'mkTypeSpec t _ _ _ _ := s in t.
Definition Ref (s : TypeSpec) : string := let 'mkTypeSpec _ r _ _ _ := s in r.
Definition Plain (s : TypeSpec) : bool := let 'mkTypeSpec _ _ p _ _ := s in p.
Definition Items (s : TypeSpec) : option TypeSpec := let 'mkTypeSpec _ _ _ i _ := s in i.
Definition AdditionalProperties (s : TypeSpec) : option TypeSpec :=
  let 'mkTypeSpec _ _ _ _ a := s in a.
(** [schema.TypeSpec{}] *)
Definition zero : TypeSpec := mkTypeSpec "" "" false None None.
(** [schema.TypeSpec{Ref: r}] *)
Definition ref (r : string) : TypeSpec := mkTypeSpec "" r false None None.
End TypeSpec.

(** A value of Go's [any], as far as defaults go. *)
Inductive any : Type :=
| AnyString (s : string)
| AnyBool (b : bool)
| AnyNumber (n : Z).

Record DefaultSpec : Type := { Environment : list string }.

Record PropertySpec : Type := {
  PropType : TypeSpec;                (* the embedded TypeSpec *)
  Secret : bool;
  ReplaceOnChanges : bool;
  PropDescription : string;
  Default : option any;
  DefaultInfo : option DefaultSpec
}.

Record ResourceSpec : Type := {
  Properties : gmap string PropertySpec;     (* ObjectTypeSpec.Properties *)
  Description : string;                      (* ObjectTypeSpec.Description *)
  Required : list string;                    (* ObjectTypeSpec.Required *)
  InputProperties : gmap string PropertySpec;
  RequiredInputs : list string;
  IsComponent : bool
}.

(** ** The collaborators: [introspect] and the method sets *)

(** [introspect.FieldTag], the parsed tag of one field. *)
Record FieldTag : Type := {
  TagName : string;
  Optional : bool;
  Internal : bool;
  TagSecret : bool;
  TagReplaceOnChanges : bool;
  ExternalType : string
}.

(** [introspect.Annotator], as far as its public maps go. *)
Record Annotator : Type := {
  Descriptions : gmap string string;
  Defaults : gmap string any;
  DefaultEnvs : gmap string (list string)
}.

(** The interfaces whose satisfaction the file asks about. *)
Inductive Iface : Set :=
| SchResource        (* sch.Resource: a resource that gives its own token *)
| PulumiResource     (* pulumi.Resource *)
| PulumiInput        (* pulumi.Input *)
| PulumiOutput       (* pulumi.Output *)
| Annotated.         (* infer.Annotated *)

(** What the program learns from outside this file about the types it walks.
    [ElementType] answers [nil] with [None]; [MethodByName] gives the result
    types of the method. *)
Record TypeEnv : Type := {
  Implements : rtype -> Iface -> bool;                 (* t.Implements(u) *)
  isEnum : rtype -> option string;                     (* isEnum(t): the token of the enum *)
  GetToken : rtype -> string * option error;           (* sch.Resource.GetToken on the zero value *)
  ElementType : rtype -> option rtype;                 (* pulumi.Output.ElementType on the zero value *)
  MethodByName : rtype -> string -> option (list rtype);
  introspectGetToken : rtype -> string * option error; (* introspect.GetToken("pkg", zero value) *)
  ParseTag : StructField -> FieldTag * option error;   (* introspect.ParseTag *)
  Annotate : rtype -> Annotator                        (* NewAnnotator(r) after r.Annotate(&a) *)
}.

Module reflect_value.

(** Whether [reflect.New(t).Elem().Interface()] holds an [i]: the zero value of
    an interface type is nil and holds nothing. *)
Definition zeroIs (E : TypeEnv) (t : rtype) (i : Iface) : bool :=
  negb (bool_decide (reflect.Kind t = Interface)) && Implements E t i.

(** [t.Elem()] and [t.Key()], which panic on a type that has none. *)
Definition Elem (t : rtype) : outcome rtype :=
  match t with
  | PointerTo e | SliceOf _ e | ArrayOf _ _ e | MapOf _ _ e => Returns e
  | _ => Panics (NoElem t)
  end.

Definition Key (t : rtype) : outcome rtype :=
  match t with
  | MapOf _ k _ => Returns k
  | _ => Panics (NoElem t)
  end.

End reflect_value.

(** ** The program *)

Section Program.

Context (E : TypeEnv).

(** [getAnnotated]: the loop leaves at most one pointer; the value asked for
    the [Annotated] interface is always a pointer to the pointer-free type. *)
Fixpoint reinflate (t : rtype) : rtype :=
  match t with
  | PointerTo (PointerTo _ as elem) => reinflate elem
  | _ => t
  end.

Definition getAnnotated (t : rtype) : Annotator :=
  let t := reinflate t in
  let i := match t with
           | PointerTo elem => PointerTo elem     (* i = reflect.New(i.Type().Elem()) *)
           | _ => PointerTo t                     (* v := reflect.New(i.Type()) *)
           end in
  if Implements E i Annotated then Annotate E i
  else {| Descriptions := ∅; Defaults := ∅; DefaultEnvs := ∅ |}.

(** [resourceReferenceToken] *)
Definition resourceReferenceToken (t : rtype) (extTag : string)
    (allowMissingExtType : bool) : outcome (TypeSpec * bool * option error) :=
  let ptrT := PointerTo t in
  let implements := fun typ => Implements E t typ || Implements E ptrT typ in
  if implements SchResource then
    if reflect_value.zeroIs E t SchResource then
      let '(tk, err) := GetToken E t in
      Returns (TypeSpec.ref ("#/resources/" +:+ tk), true, err)
    else Panics (BadAssertion t)
  else if implements PulumiResource then
    if decide (extTag = "") then
      if allowMissingExtType then Returns (TypeSpec.zero, true, None)
      else Returns (TypeSpec.zero, true, Some (MissingExternalTypeError t))
    else
      match strings.Split extTag ":" with
      | [part0; module; name] =>
          match strings.Split part0 "@" with
          | [pkgName; pkgVersion] =>
              let tk := pkgName +:+ ":" +:+ module +:+ ":" +:+ name in
              Returns (TypeSpec.ref ("/" +:+ pkgName +:+ "/" +:+ pkgVersion
                                     +:+ "/schema.json#/resources/" +:+ tk),
                       true, None)
          | _ => Panics (AssertFailed "invalid type= head; got %q" part0)
          end
      | _ => Panics (AssertFailed "invalid type= tag; got %q" extTag)
      end
  else Returns (TypeSpec.zero, false, None).

(** [structReferenceToken] *)
Definition structReferenceToken (t : rtype) : string * bool * option error :=
  if negb (bool_decide (reflect.Kind t = Struct)) || Implements E t PulumiOutput
  then ("", false, None)
  else let '(tk, err) := introspectGetToken E t in (tk, true, err).

(** [underlyingType].  The argument and the result may be the nil type. *)
Definition underlyingType (t : option rtype)
    : outcome (option rtype * bool * option error) :=
  match stripPointers <$> t with
  | None => Panics NilType
  | Some t =>
      let isInputType := Implements E t PulumiInput in
      let isOutputType := Implements E (PointerTo t) PulumiOutput in
      let t := stripPointers t in
      if isOutputType then
        if reflect_value.zeroIs E t PulumiOutput then
          Returns (stripPointers <$> ElementType E t, isOutputType || isInputType, None)
        else Panics (BadAssertion t)
      else if isInputType then
        let T := reflect.Name t in
        if strings.HasSuffix T "Input" then
          let T := strings.TrimSuffix T "Input" in
          match MethodByName E t ("To" +:+ T +:+ "Output") with
          | None => Returns (None, false, Some (InputMethodError (reflect.Name t) T))
          | Some [] => Panics (NoSuchResult t)
          | Some (outputT :: _) =>
              if reflect_value.zeroIs E outputT PulumiOutput then
                Returns (stripPointers <$> ElementType E outputT,
                         isOutputType || isInputType, None)
              else
                let strct := if bool_decide (reflect.Kind outputT = Interface)
                             then None else Some outputT in
                Returns (None, false, Some (OutputContractError strct T (reflect.Name t)))
          end
        else Returns (None, false, Some (InputSuffixError T))
      else Returns (Some (stripPointers t), isOutputType || isInputType, None)
  end.

(** [serializeTypeAsPropertyType].  The walk follows element types that come
    from [ElementType], so it is bounded by [fuel]: one unit per call. *)
Fixpoint serializeTypeAsPropertyType (fuel : nat) (t : rtype) (indicatePlain : bool)
    (extType : string) : outcome (TypeSpec * option error) :=
  match fuel with
  | O => OutOfFuel
  | S fuel =>
      let t := stripPointers t in
      match isEnum E t with
      | Some token => Returns (TypeSpec.ref ("#/types/" +:+ token), None)
      | None =>
      '(tk, ok, err) ← resourceReferenceToken t extType false;
      if ok : bool then
        match err with
        | Some e => Returns (TypeSpec.zero, Some e)
        | None => Returns (tk, None)
        end
      else
      let '(tk, ok, err) := structReferenceToken t in
      if ok : bool then
        match err with
        | Some e => Returns (TypeSpec.zero, Some e)
        | None => Returns (TypeSpec.ref ("#/types/" +:+ tk), None)
        end
      else
      '(t, inputy, err) ← underlyingType (Some t);
      match err with
      | Some e => Returns (TypeSpec.zero, Some e)
      | None =>
      match t with
      | None => Panics NilType
      | Some t =>
      let primitive := fun name : string =>
        Returns (mkTypeSpec name "" (negb inputy && indicatePlain) None None, None) in
      match reflect.Kind t with
      | Map =>
          key ← reflect_value.Key t;
          if negb (bool_decide (reflect.Kind key = String_)) then
            Returns (TypeSpec.zero, Some (MapKeyError key))
          else
            elem ← reflect_value.Elem t;
            '(el, err) ← serializeTypeAsPropertyType fuel elem indicatePlain extType;
            match err with
            | Some e => Returns (TypeSpec.zero, Some e)
            | None => Returns (mkTypeSpec "object" "" false None (Some el), None)
            end
      | Array | Slice =>
          elem ← reflect_value.Elem t;
          '(el, err) ← serializeTypeAsPropertyType fuel elem indicatePlain extType;
          match err with
          | Some e => Returns (TypeSpec.zero, Some e)
          | None => Returns (mkTypeSpec "array" "" false (Some el) None, None)
          end
      | Bool => primitive "boolean"
      | Int | Int64 | Int32 => primitive "integer"
      | Float64 => primitive "number"
      | String_ => primitive "string"
      | Interface => Returns (TypeSpec.ref "pulumi.json#/Any", None)
      | _ => Returns (TypeSpec.zero, Some (UnsupportedKindError t))
      end
      end
      end
      end
  end.

(** [propertyListFromType]: the body of the loop over the fields, from field
    [i] on, with the map and the list built so far.  A nil map and a nil
    slice are the empty ones. *)
Fixpoint fieldLoop (fuel : nat) (typ : rtype) (annotations : Annotator)
    (indicatePlain : bool) (fields : list StructField)
    (props : gmap string PropertySpec) (required : list string)
    : outcome (gmap string PropertySpec * list string * option error) :=
  match fields with
  | [] => Returns (props, required, None)
  | field :: rest =>
      let fieldType := stripPointers (fieldType field) in
      let '(tags, err) := ParseTag E field in
      match err with
      | Some e => Returns (∅, [], Some (InvalidField (fieldName field) typ e))
      | None =>
      if Internal tags then
        fieldLoop fuel typ annotations indicatePlain rest props required
      else
      '(serialized, err) ←
        serializeTypeAsPropertyType fuel fieldType indicatePlain (ExternalType tags);
      match err with
      | Some e => Returns (∅, [], Some (InvalidType fieldType typ (fieldName field) e))
      | None =>
      let required := if negb (Optional tags) then required ++ [TagName tags]
                      else required in
      let spec := {| PropType := serialized;
                     Secret := TagSecret tags;
                     ReplaceOnChanges := TagReplaceOnChanges tags;
                     PropDescription := default "" (Descriptions annotations !! TagName tags);
                     Default := Defaults annotations !! TagName tags;
                     DefaultInfo :=
                       match DefaultEnvs annotations !! TagName tags with
                       | Some (env :: envs) => Some {| Environment := env :: envs |}
                       | _ => None
                       end |} in
      fieldLoop fuel typ annotations indicatePlain rest
                (<[TagName tags := spec]> props) required
      end
      end
  end.

Definition propertyListFromType (fuel : nat) (typ : rtype) (indicatePlain : bool)
    : outcome (gmap string PropertySpec * list string * option error) :=
  let typ := stripPointers typ in
  let props : gmap string PropertySpec := ∅ in
  let annotations := getAnnotated typ in
  match typ with
  | StructOf _ fields => fieldLoop fuel typ annotations indicatePlain fields props []
  | _ => Panics (NotAStruct typ)
  end.

(** [getResourceSchema[R, I, O]].  The type arguments are given as types;
    [reflect.TypeOf(r)] of the zero value of an interface type is nil.
    [multierror.Error] is the list of its [Errors]. *)
Definition getResourceSchema (fuel : nat) (R I O : rtype) (isComponent : bool)
    : outcome (ResourceSpec * list error) :=
  let errs : list error := [] in
  if bool_decide (reflect.Kind R = Interface) then Panics NilType else
  let descriptions := getAnnotated R in
  '(properties, required, err) ← propertyListFromType fuel (PointerTo O) isComponent;
  let errs := match err with
              | Some e => errs ++ [OutputTypeError O e]
              | None => errs
              end in
  '(inputProperties, requiredInputs, err) ←
    propertyListFromType fuel (PointerTo I) isComponent;
  let errs := match err with
              | Some e => errs ++ [InputTypeError I e]
              | None => errs
              end in
  Returns ({| Properties := properties;
              Description := default "" (Descriptions descriptions !! "");
              Required := required;
              InputProperties := inputProperties;
              RequiredInputs := requiredInputs;
              IsComponent := isComponent |}, errs).

End Program.

(** [schemaNameForType]; [None] is its panic "unknown primitive type: %s". *)
Definition schemaNameForType (t : Kind) : option string :=
  match t with
  | String_ => Some "string"
  | Bool => Some "boolean"
  | Float64 => Some "number"
  | Int => Some "integer"
  | _ => None
  end.

(** ** A small provider, to run the program on

    The types are those of a provider that uses the SDK's string wrappers and
    asset output, one resource of its own and one resource of another
    package. *)

Module Sample.

Definition string_ : rtype := Scalar "string" KString.
Definition int_ : rtype := Scalar "int" KInt.
Definition int8_ : rtype := Scalar "int8" KInt8.
Definition float32_ : rtype := Scalar "float32" KFloat32.

(** [pulumi.StringOutput], [pulumi.StringInput] *)
Definition StringOutput : rtype := StructOf "StringOutput" [].
Definition StringInput : rtype := Scalar "StringInput" KInterface.
(** [pulumi.AssetOutput], whose element type is the interface [pulumi.Asset];
    [Asset] embeds [AssetInput], so it is an input type itself. *)
Definition AssetOutput : rtype := StructOf "AssetOutput" [].
Definition Asset : rtype := Scalar "Asset" KInterface.
(** A resource of this provider and a resource of another package. *)
Definition Bucket : rtype := StructOf "Bucket" [].
Definition RandomPet : rtype := StructOf "RandomPet" [].

Definition named (t : rtype) (names : list string) : bool :=
  bool_decide (reflect.Name t ∈ names).

Definition implements (t : rtype) (i : Iface) : bool :=
  match i, t with
  | PulumiOutput, StructOf _ _ | PulumiOutput, PointerTo (StructOf _ _) =>
      named (stripPointers t) ["StringOutput"; "AssetOutput"]
  | PulumiInput, Scalar _ KInterface => named t ["StringInput"; "Asset"]
  | PulumiInput, StructOf _ _ => named t ["StringOutput"; "AssetOutput"]
  | SchResource, StructOf _ _ | SchResource, PointerTo (StructOf _ _) =>
      named (stripPointers t) ["Bucket"]
  | PulumiResource, PointerTo (StructOf _ _) => named (stripPointers t) ["RandomPet"]
  | Annotated, PointerTo (StructOf _ _) => named (stripPointers t) ["Bucket"]
  | _, _ => false
  end.

Definition elementType (t : rtype) : option rtype :=
  if named t ["StringOutput"] then Some string_
  else if named t ["AssetOutput"] then Some Asset
  else None.

Definition methodByName (t : rtype) (m : string) : option (list rtype) :=
  if named t ["StringInput"] && bool_decide (m = "ToStringOutput")
  then Some [StringOutput] else None.

(** Tags in the sample are the option list itself: the name first, then any
    of [optional], [secret], [replaceOnChanges], [internal] and
    [type=pkg@version:module:name]. *)
Definition applyOption (tg : FieldTag * option error) (o : string)
    : FieldTag * option error :=
  let '(tags, err) := tg in
  let upd opt int sec rep ext :=
    ({| TagName := TagName tags; Optional := opt; Internal := int; TagSecret := sec;
        TagReplaceOnChanges := rep; ExternalType := ext |}, err) in
  if decide (o = "optional")
  then upd true (Internal tags) (TagSecret tags) (TagReplaceOnChanges tags) (ExternalType tags)
  else if decide (o = "internal")
  then upd (Optional tags) true (TagSecret tags) (TagReplaceOnChanges tags) (ExternalType tags)
  else if decide (o = "secret")
  then upd (Optional tags) (Internal tags) true (TagReplaceOnChanges tags) (ExternalType tags)
  else if decide (o = "replaceOnChanges")
  then upd (Optional tags) (Internal tags) (TagSecret tags) true (ExternalType tags)
  else if String.prefix "type=" o
  then upd (Optional tags) (Internal tags) (TagSecret tags) (TagReplaceOnChanges tags)
           (String.substring 5 (String.length o - 5) o)
  else (tags, Some (Foreign ("unknown option " +:+ o))).

Definition parseTag (f : StructField) : FieldTag * option error :=
  match strings.Split (fieldTag f) "," with
  | name :: options =>
      foldl applyOption
            ({| TagName := name; Optional := false; Internal := false; TagSecret := false;
                TagReplaceOnChanges := false; ExternalType := "" |}, None) options
  | [] => ({| TagName := ""; Optional := false; Internal := false; TagSecret := false;
              TagReplaceOnChanges := false; ExternalType := "" |}, Some (Foreign "empty tag"))
  end.

Definition annotate (t : rtype) : Annotator :=
  {| Descriptions := {[ "" := "A bucket of objects."; "name" := "The name of the bucket." ]};
     Defaults := ∅;
     DefaultEnvs := ∅ |}.

Definition env : TypeEnv :=
  {| Implements := implements;
     isEnum := fun _ => None;
     GetToken := fun t => ("pkg:index:" +:+ reflect.Name t, None);
     ElementType := elementType;
     MethodByName := methodByName;
     introspectGetToken := fun t => ("pkg:index:" +:+ reflect.Name t, None);
     ParseTag := parseTag;
     Annotate := annotate |}.

(** The types of the end-to-end example of the provider's tests. *)
Definition invInput : rtype := StructOf "invInput" [mkField "Field" "field" string_].
Definition invOutput : rtype := StructOf "invOutput" [mkField "Out" "out,secret" string_].

(** An argument type with a defect in its second field and another in its
    fourth. *)
Definition badArgs : rtype :=
  StructOf "badArgs"
    [mkField "Name" "name" string_;
     mkField "Labels" "labels" (MapOf "" int_ string_);
     mkField "Size" "size,optional" int_;
     mkField "Ratio" "ratio" float32_].

(** A state type that keeps a channel to itself. *)
Definition bucketState : rtype :=
  StructOf "bucketState"
    [mkField "Name" "name" string_;
     mkField "Events" "events,internal" (Scalar "" KChan);
     mkField "Size" "size,optional" (PointerTo int_);
     mkField "Tags" "tags,secret" (MapOf "" string_ string_)].

End Sample.


(** ** The vocabulary of the statements *)

(** What the closure [implements] of [resourceReferenceToken] computes. *)
Definition implementsEither (E : TypeEnv) (t : rtype) (i : Iface) : bool :=
  Implements E t i || Implements E (PointerTo t) i.

(** A type that is a [pulumi.Resource] without giving a token of its own. *)
Definition isExternalResource (E : TypeEnv) (t : rtype) : Prop :=
  implementsEither E t SchResource = false /\
  implementsEither E t PulumiResource = true.

(** The errors [getResourceSchema] appends for one pass. *)
Definition outputErrors (O : rtype) (err : option error) : list error :=
  match err with Some e => [OutputTypeError O e] | None => [] end.
Definition inputErrors (I : rtype) (err : option error) : list error :=
  match err with Some e => [InputTypeError I e] | None => [] end.

(** The parsed tags of the fields that are not internal, in order. *)
Definition exposedTags (E : TypeEnv) (fields : list StructField) : list FieldTag :=
  filter (fun tags => Internal tags = false) ((fun f => (ParseTag E f).1) <$> fields).

(** The names the loop appends to the required list. *)
Definition requiredNames (E : TypeEnv) (fields : list StructField) : list string :=
  TagName <$> filter (fun tags => Optional tags = false) (exposedTags E fields).

(** The error with which field [f] ends the loop: its tag does not parse, or
    it is not internal and the walk of its type returns an error. *)
Definition fieldFails (E : TypeEnv) (fuel : nat) (typ : rtype) (indicatePlain : bool)
    (f : StructField) (e : error) : Prop :=
  (exists tags cause,
      ParseTag E f = (tags, Some cause) /\
      e = InvalidField (fieldName f) typ cause)
  \/ (exists tags serialized cause,
        ParseTag E f = (tags, None) /\ Internal tags = false /\
        serializeTypeAsPropertyType E fuel (stripPointers (fieldType f)) indicatePlain
          (ExternalType tags) = Returns (serialized, Some cause) /\
        e = InvalidType (stripPointers (fieldType f)) typ (fieldName f) cause).

(** [schema.TypeSpec{Type: name, Plain: plain}], the result of the closure
    [primitive]. *)
Definition primitiveSpec (name : string) (plain : bool) : TypeSpec :=
  mkTypeSpec name "" plain None None.

(** The walk of [t] gets past the enum, resource and struct checks, and
    [underlyingType] resolves [t] to the base type [u]. *)
Definition walksToBase (E : TypeEnv) (t : rtype) (extType : string) (u : rtype)
    (wrapped : bool) : Prop :=
  isEnum E (stripPointers t) = None
  /\ resourceReferenceToken E (stripPointers t) extType false
     = Returns (TypeSpec.zero, false, None)
  /\ structReferenceToken E (stripPointers t) = ("", false, None)
  /\ underlyingType E (Some (stripPointers t)) = Returns (Some u, wrapped, None).

(** No type spec in [s], at any depth, is marked plain. *)
Fixpoint neverPlain (s : TypeSpec) : bool :=
  let 'mkTypeSpec _ _ plain items additional := s in
  negb plain
  && match items with Some el => neverPlain el | None => true end
  && match additional with Some el => neverPlain el | None => true end.

(** A type spec names a type in exactly one way: by [Type] or by [Ref]. *)
Definition namesOneType (s : TypeSpec) : Prop :=
  (TypeSpec.Type_ s <> "" /\ TypeSpec.Ref s = "")
  \/ (TypeSpec.Type_ s = "" /\ TypeSpec.Ref s <> "").

(** The property the loop stores for a field with tags [tags] whose type
    walks to [serialized]. *)
Definition propertyFor (annotations : Annotator) (tags : FieldTag)
    (serialized : TypeSpec) : PropertySpec :=
  {| PropType := serialized;
     Secret := TagSecret tags;
     ReplaceOnChanges := TagReplaceOnChanges tags;
     PropDescription := default "" (Descriptions annotations !! TagName tags);
     Default := Defaults annotations !! TagName tags;
     DefaultInfo :=
       match DefaultEnvs annotations !! TagName tags with
       | Some (env :: envs) => Some {| Environment := env :: envs |}
       | _ => None
       end |}.

(** The errors [propertyListFromType] builds: each names a field of [typ]. *)
Definition isFieldError (typ : rtype) (fields : list StructField) (e : error) : Prop :=
  exists f cause,
    f ∈ fields /\
    (e = InvalidField (fieldName f) typ cause
     \/ e = InvalidType (stripPointers (fieldType f)) typ (fieldName f) cause).

(** Every property of [props] is the one the loop stores for a field of
    [fields] that is not internal and whose type walks without an error. *)
Definition storedFromFields (E : TypeEnv) (fuel : nat) (annotations : Annotator)
    (indicatePlain : bool) (fields : list StructField)
    (props : gmap string PropertySpec) : Prop :=
  forall n spec,
    props !! n = Some spec ->
    exists f tags serialized,
      f ∈ fields /\ ParseTag E f = (tags, None) /\ Internal tags = false
      /\ TagName tags = n
      /\ serializeTypeAsPropertyType E fuel (stripPointers (fieldType f)) indicatePlain
           (ExternalType tags) = Returns (serialized, None)
      /\ spec = propertyFor annotations tags serialized.

(** ** Values of the sample provider *)

(** The properties the sample state type gives. *)
Definition bucketStateProps : gmap string PropertySpec :=
  <["tags" := {| PropType := mkTypeSpec "object" "" false None
                               (Some (mkTypeSpec "string" "" false None None));
                 Secret := true; ReplaceOnChanges := false; PropDescription := "";
                 Default := None; DefaultInfo := None |}]>
  (<["size" := {| PropType := mkTypeSpec "integer" "" false None None;
                  Secret := false; ReplaceOnChanges := false; PropDescription := "";
                  Default := None; DefaultInfo := None |}]>
  (<["name" := {| PropType := mkTypeSpec "string" "" false None None;
                  Secret := false; ReplaceOnChanges := false; PropDescription := "";
                  Default := None; DefaultInfo := None |}]> ∅)).

(** The end-to-end example: the output type of the provider's test next to a
    defective input type. *)
Definition invOutputProps : gmap string PropertySpec :=
  <["out" := {| PropType := mkTypeSpec "string" "" true None None;
                Secret := true; ReplaceOnChanges := false; PropDescription := "";
                Default := None; DefaultInfo := None |}]> ∅.

Definition badArgsError : error :=
  InvalidType (MapOf "" Sample.int_ Sample.string_) Sample.badArgs "Labels"
    (MapKeyError Sample.int_).

(** The sample provider with defaults annotated on every type: a default
    value and one environment variable for [name], and an empty list of
    environment variables for [size]. *)
Definition annotatedEnv : TypeEnv :=
  {| Implements := fun t i =>
       match i with Annotated => true | _ => Sample.implements t i end;
     isEnum := isEnum Sample.env;
     GetToken := GetToken Sample.env;
     ElementType := ElementType Sample.env;
     MethodByName := MethodByName Sample.env;
     introspectGetToken := introspectGetToken Sample.env;
     ParseTag := ParseTag Sample.env;
     Annotate := fun _ =>
       {| Descriptions := {[ "name" := "The name of the bucket." ]};
          Defaults := {[ "name" := AnyString "bucket" ]};
          DefaultEnvs := {[ "name" := ["BUCKET_NAME"]; "size" := [] ]} |} |}.

Definition annotatedStateProps : gmap string PropertySpec :=
  <["tags" := {| PropType := mkTypeSpec "object" "" false None
                               (Some (mkTypeSpec "string" "" false None None));
                 Secret := true; ReplaceOnChanges := false; PropDescription := "";
                 Default := None; DefaultInfo := None |}]>
  (<["size" := {| PropType := mkTypeSpec "integer" "" false None None;
                  Secret := false; ReplaceOnChanges := false; PropDescription := "";
                  Default := None; DefaultInfo := None |}]>
  (<["name" := {| PropType := mkTypeSpec "string" "" false None None;
                  Secret := false; ReplaceOnChanges := false;
                  PropDescription := "The name of the bucket.";
                  Default := Some (AnyString "bucket");
                  DefaultInfo := Some {| Environment := ["BUCKET_NAME"] |} |}]> ∅)).

(** The schema of the sample resource with [bucketState] as its output type
    and [invInput] as its input type, and the schema of the component whose
    input type is [badArgs]. *)
Definition bucketSchema : ResourceSpec :=
  {| Properties := bucketStateProps;
     Description := "A bucket of objects.";
     Required := ["name"; "tags"];
     InputProperties :=
       <["field" := {| PropType := mkTypeSpec "string" "" false None None;
                       Secret := false; ReplaceOnChanges := false;
                       PropDescription := ""; Default := None;
                       DefaultInfo := None |}]> ∅;
     RequiredInputs := ["field"];
     IsComponent := false |}.

Definition badArgsSchema : ResourceSpec :=
  {| Properties := invOutputProps;
     Description := "A bucket of objects.";
     Required := ["out"];
     InputProperties := ∅;
     RequiredInputs := [];
     IsComponent := true |}.

(** The sample provider with one more resource, [Queue], whose [GetToken]
    has a pointer receiver. *)
Definition Queue : rtype := StructOf "Queue" [].

Definition receiverEnv : TypeEnv :=
  {| Implements := fun t i =>
       match i, t with
       | SchResource, PointerTo (StructOf name _) =>
           bool_decide (name = "Queue") || Sample.implements t i
       | _, _ => Sample.implements t i
       end;
     isEnum := isEnum Sample.env;
     GetToken := GetToken Sample.env;
     ElementType := ElementType Sample.env;
     MethodByName := MethodByName Sample.env;
     introspectGetToken := introspectGetToken Sample.env;
     ParseTag := ParseTag Sample.env;
     Annotate := Annotate Sample.env |}.

(** ** Proof steps *)

Ltac kind_cases H :=
  repeat (apply elem_of_cons in H as [H|H]); [.. | by apply elem_of_nil in H].

Ltac no_member H :=
  repeat (apply elem_of_cons in H as [H|H]; [discriminate H|]);
  by apply elem_of_nil in H.

(** ** Facts about the string functions *)

Section SplitFacts.

Import strings.

Lemma Split_length (s : string) (sep : ascii) :
  length (Split s sep) = S (Count s sep).
Proof.
  induction s as [|c rest IH]; simpl; [reflexivity|].
  destruct (Ascii.eqb c sep); simpl; [by rewrite IH|].
  destruct (Split rest sep) as [|seg segs]; simpl in *; lia.
Qed.

Lemma Split_without_sep (s : string) (sep : ascii) :
  Count s sep = 0 -> Split s sep = [s].
Proof.
  induction s as [|c rest IH]; simpl; [reflexivity|].
  destruct (Ascii.eqb c sep); simpl; [discriminate|].
  intros H. by rewrite (IH H).
Qed.

Lemma Split_at_first_sep (a b : string) (sep : ascii) :
  Count a sep = 0 -> Split (a +:+ String sep b) sep = a :: Split b sep.
Proof.
  induction a as [|c rest IH]; simpl.
  - intros _. by rewrite Ascii.eqb_refl.
  - destruct (Ascii.eqb c sep); simpl; [discriminate|].
    intros H. by rewrite (IH H).
Qed.

Lemma Split_other_prefix (a b : string) (sep : ascii) :
  Count a sep = 0 ->
  Split (a +:+ b) sep =
    match Split b sep with
    | seg :: segs => (a +:+ seg) :: segs
    | [] => [a]
    end.
Proof.
  pose proof (Split_length b sep) as Hl.
  induction a as [|c rest IH].
  - intros _. change ("" +:+ b) with b.
    destruct (Split b sep); [discriminate Hl | reflexivity].
  - change (String c rest +:+ b) with (String c (rest +:+ b)).
    cbn [Count Split]. destruct (Ascii.eqb c sep); [discriminate|].
    intros H. rewrite (IH H).
    destruct (Split b sep); [discriminate Hl | reflexivity].
Qed.

Lemma Count_app (a b : string) (c : ascii) :
  Count (a +:+ b) c = Count a c + Count b c.
Proof.
  induction a as [|d rest IH]; [reflexivity|].
  change (String d rest +:+ b) with (String d (rest +:+ b)).
  cbn [Count]. rewrite IH. lia.
Qed.

(** The locator [pkg@version:module:name] splits into its three segments,
    and its head into its two. *)
Lemma Split_locator (pkg ver module name : string) :
  Count pkg ":" = 0 -> Count ver ":" = 0 -> Count module ":" = 0 ->
  Count name ":" = 0 ->
  Split (pkg +:+ "@" +:+ ver +:+ ":" +:+ module +:+ ":" +:+ name) ":"
  = [pkg +:+ "@" +:+ ver; module; name].
Proof.
  intros Hp Hv Hm Hn.
  rewrite (Split_other_prefix pkg _ ":" Hp).
  change ("@" +:+ ver +:+ ":" +:+ module +:+ ":" +:+ name)
    with (String "@" (ver +:+ String ":" (module +:+ String ":" name))).
  cbn [Split]. change (Ascii.eqb "@" ":") with false. cbv iota.
  rewrite (Split_at_first_sep ver _ ":" Hv), (Split_at_first_sep module _ ":" Hm),
    (Split_without_sep name ":" Hn).
  reflexivity.
Qed.

Lemma Split_head (pkg ver : string) :
  Count pkg "@" = 0 -> Count ver "@" = 0 ->
  Split (pkg +:+ "@" +:+ ver) "@" = [pkg; ver].
Proof.
  intros Hp Hv.
  change (pkg +:+ "@" +:+ ver) with (pkg +:+ String "@" ver).
  by rewrite (Split_at_first_sep pkg ver "@" Hp), (Split_without_sep ver "@" Hv).
Qed.

End SplitFacts.

(** ** Pointers *)

Lemma stripPointers_idem (t : rtype) : stripPointers (stripPointers t) = stripPointers t.
Proof. induction t; simpl; auto. Qed.

Lemma stripPointers_iter (n : nat) (t : rtype) :
  stripPointers (Nat.iter n PointerTo t) = stripPointers t.
Proof. induction n as [|n IH]; simpl; auto. Qed.

Lemma stripPointers_not_pointer (t : rtype) :
  reflect.Kind (stripPointers t) <> Pointer.
Proof. induction t; simpl; try discriminate; auto. destruct k; discriminate. Qed.

Lemma stripPointers_fixed (t : rtype) :
  reflect.Kind t <> Pointer -> stripPointers t = t.
Proof. destruct t; simpl; congruence. Qed.

(** ** The walker and pointers *)

(** C9. Walking a pointer to [t], or a chain of any number of pointers to
    [t], gives exactly what walking [t] gives: the same type spec, the same
    error, the same panic, with the same fuel. *)
Theorem serialize_pointer_invariant (E : TypeEnv) (fuel n : nat) (t : rtype)
    (indicatePlain : bool) (extType : string) :
  serializeTypeAsPropertyType E fuel (Nat.iter n PointerTo t) indicatePlain extType
  = serializeTypeAsPropertyType E fuel t indicatePlain extType.
Proof.
  destruct fuel as [|fuel]; [reflexivity|].
  cbn [serializeTypeAsPropertyType].
  by rewrite stripPointers_iter.
Qed.

(** ** References to resources of other packages *)

Lemma resourceReferenceToken_external (E : TypeEnv) (t : rtype) (extTag : string)
    (allow : bool) :
  isExternalResource E t ->
  resourceReferenceToken E t extTag allow =
    if decide (extTag = "") then
      if allow then Returns (TypeSpec.zero, true, None)
      else Returns (TypeSpec.zero, true, Some (MissingExternalTypeError t))
    else
      match strings.Split extTag ":" with
      | [part0; module; name] =>
          match strings.Split part0 "@" with
          | [pkgName; pkgVersion] =>
              Returns (TypeSpec.ref ("/" +:+ pkgName +:+ "/" +:+ pkgVersion
                                     +:+ "/schema.json#/resources/"
                                     +:+ pkgName +:+ ":" +:+ module +:+ ":" +:+ name),
                       true, None)
          | _ => Panics (AssertFailed "invalid type= head; got %q" part0)
          end
      | _ => Panics (AssertFailed "invalid type= tag; got %q" extTag)
      end.
Proof.
  intros [Hs Hp]. unfold implementsEither in Hs, Hp.
  unfold resourceReferenceToken. by rewrite Hs, Hp.
Qed.

(** C6. For a type that is a resource of another package, the empty locator
    tag gives the missing-type error, and in permissive mode the same call
    gives the empty type spec without an error; the walker, which is never
    permissive, hands the error on. *)
Theorem external_resource_without_locator (E : TypeEnv) (t : rtype) :
  isExternalResource E t ->
  resourceReferenceToken E t "" false
    = Returns (TypeSpec.zero, true, Some (MissingExternalTypeError t))
  /\ resourceReferenceToken E t "" true = Returns (TypeSpec.zero, true, None)
  /\ (forall fuel indicatePlain,
        reflect.Kind t <> Pointer -> isEnum E t = None ->
        serializeTypeAsPropertyType E (S fuel) t indicatePlain ""
          = Returns (TypeSpec.zero, Some (MissingExternalTypeError t))).
Proof.
  intros Hext. split; [|split].
  - by rewrite (resourceReferenceToken_external E t "" false Hext).
  - by rewrite (resourceReferenceToken_external E t "" true Hext).
  - intros fuel p Hk He. cbn [serializeTypeAsPropertyType].
    rewrite (stripPointers_fixed t Hk), He.
    by rewrite (resourceReferenceToken_external E t "" false Hext).
Qed.

(** C7. For a resource of another package with a locator tag: a tag that does
    not split into three segments at its colons, or whose first segment does
    not split in two at [@], ends the call in a failed assertion; the tag
    [pkg@version:module:name] gives the reference to
    [/pkg/version/schema.json#/resources/pkg:module:name]. *)
Theorem external_locator_contract (E : TypeEnv) (t : rtype) (allow : bool) :
  isExternalResource E t ->
  (forall extTag,
      extTag <> "" ->
      length (strings.Split extTag ":") <> 3 \/
      length (strings.Split (hd "" (strings.Split extTag ":")) "@") <> 2 ->
      exists format arg,
        resourceReferenceToken E t extTag allow = Panics (AssertFailed format arg))
  /\ (forall pkg ver module name,
        strings.Count pkg ":" = 0 -> strings.Count pkg "@" = 0 ->
        strings.Count ver ":" = 0 -> strings.Count ver "@" = 0 ->
        strings.Count module ":" = 0 -> strings.Count name ":" = 0 ->
        resourceReferenceToken E t
          (pkg +:+ "@" +:+ ver +:+ ":" +:+ module +:+ ":" +:+ name) allow
        = Returns (TypeSpec.ref ("/" +:+ pkg +:+ "/" +:+ ver
                                 +:+ "/schema.json#/resources/"
                                 +:+ pkg +:+ ":" +:+ module +:+ ":" +:+ name),
                   true, None)).
Proof.
  intros Hext. split.
  - intros extTag Hne Hbad.
    rewrite (resourceReferenceToken_external E t extTag allow Hext).
    destruct (decide (extTag = "")) as [->|_]; [done|].
    destruct (strings.Split extTag ":") as [|p0 [|p1 [|p2 [|p3 ps]]]];
      cbn [hd length] in Hbad; eauto.
    destruct (strings.Split p0 "@") as [|h0 [|h1 [|h2 hs]]];
      cbn [length] in Hbad; eauto.
    destruct Hbad; congruence.
  - intros pkg ver module name Hp Hp' Hv Hv' Hm Hn.
    rewrite (resourceReferenceToken_external E t _ allow Hext).
    destruct (decide (_ = "")) as [Hempty|_].
    { destruct pkg; discriminate Hempty. }
    rewrite (Split_locator pkg ver module name Hp Hv Hm Hn).
    by rewrite (Split_head pkg ver Hp' Hv').
Qed.

Lemma RandomPet_is_external : isExternalResource Sample.env Sample.RandomPet.
Proof. split; reflexivity. Qed.

Lemma external_resource_without_locator_witness :
  isExternalResource Sample.env Sample.RandomPet /\
  resourceReferenceToken Sample.env Sample.RandomPet "" false
    = Returns (TypeSpec.zero, true, Some (MissingExternalTypeError Sample.RandomPet)) /\
  resourceReferenceToken Sample.env Sample.RandomPet "" true
    = Returns (TypeSpec.zero, true, None).
Proof.
  assert (H : isExternalResource Sample.env Sample.RandomPet) by (split; reflexivity).
  destruct (external_resource_without_locator Sample.env Sample.RandomPet H)
    as (Hstrict & Hpermissive & _).
  exact (conj H (conj Hstrict Hpermissive)).
Defined.

Lemma external_locator_contract_witness :
  isExternalResource Sample.env Sample.RandomPet /\
  (exists format arg,
      resourceReferenceToken Sample.env Sample.RandomPet "random:index" false
      = Panics (AssertFailed format arg)) /\
  resourceReferenceToken Sample.env Sample.RandomPet
    "random@4.3.1:index/randomPet:RandomPet" false
  = Returns (TypeSpec.ref
               "/random/4.3.1/schema.json#/resources/random:index/randomPet:RandomPet",
             true, None).
Proof.
  assert (H : isExternalResource Sample.env Sample.RandomPet) by (split; reflexivity).
  destruct (external_locator_contract Sample.env Sample.RandomPet false H)
    as [Hbad Hgood].
  split; [exact H|]. split.
  - apply Hbad; [discriminate|]. left. vm_compute. lia.
  - exact (Hgood "random" "4.3.1" "index/randomPet" "RandomPet"
             eq_refl eq_refl eq_refl eq_refl eq_refl eq_refl).
Defined.

(** ** Assembling the schema of a resource *)

(** [getAnnotated] asks the pointer to the pointer-free type, however many
    pointers the type it is given has. *)
Lemma getAnnotated_pointer_free (E : TypeEnv) (t : rtype) :
  getAnnotated E t =
    if Implements E (PointerTo (stripPointers t)) Annotated
    then Annotate E (PointerTo (stripPointers t))
    else {| Descriptions := ∅; Defaults := ∅; DefaultEnvs := ∅ |}.
Proof.
  induction t as [| elem IH | | | |]; try reflexivity.
  destruct elem; try reflexivity. exact IH.
Qed.

Lemma getResourceSchema_returns (E : TypeEnv) (fuel : nat) (R I O : rtype)
    (isComponent : bool) po ro eo pi ri ei :
  reflect.Kind R <> Interface ->
  propertyListFromType E fuel (PointerTo O) isComponent = Returns (po, ro, eo) ->
  propertyListFromType E fuel (PointerTo I) isComponent = Returns (pi, ri, ei) ->
  getResourceSchema E fuel R I O isComponent =
    Returns ({| Properties := po;
                Description := default "" (Descriptions (getAnnotated E R) !! "");
                Required := ro;
                InputProperties := pi;
                RequiredInputs := ri;
                IsComponent := isComponent |},
             outputErrors O eo ++ inputErrors I ei).
Proof.
  intros HR HO HI. unfold getResourceSchema.
  rewrite bool_decide_eq_false_2 by exact HR.
  rewrite HO. cbn [mbind outcome_bind]. rewrite HI. cbn [mbind outcome_bind].
  destruct eo, ei; reflexivity.
Qed.

(** C2. Whatever the two passes over the output type and the input type
    return, the assembler returns a schema that holds the properties and
    required list of each pass as that pass returned them, together with the
    list of errors made of the error of the output pass, if any, followed by
    the error of the input pass, if any. *)
Theorem getResourceSchema_aggregates (E : TypeEnv) (fuel : nat) (R I O : rtype)
    (isComponent : bool) po ro eo pi ri ei :
  reflect.Kind R <> Interface ->
  propertyListFromType E fuel (PointerTo O) isComponent = Returns (po, ro, eo) ->
  propertyListFromType E fuel (PointerTo I) isComponent = Returns (pi, ri, ei) ->
  exists spec,
    getResourceSchema E fuel R I O isComponent
      = Returns (spec, outputErrors O eo ++ inputErrors I ei)
    /\ Properties spec = po /\ Required spec = ro
    /\ InputProperties spec = pi /\ RequiredInputs spec = ri
    /\ IsComponent spec = isComponent.
Proof.
  intros HR HO HI. eexists. split.
  - exact (getResourceSchema_returns E fuel R I O isComponent _ _ _ _ _ _ HR HO HI).
  - repeat split.
Qed.

(** C10. The description of the assembled schema is the entry under the empty
    key of the annotations of the resource type [R] (read through a pointer to
    the pointer-free [R]), and the empty string when [R] has no [Annotate]
    method; it is the same whatever the input and output types are and
    whether or not their passes return an error. *)
Theorem getResourceSchema_description (E : TypeEnv) (fuel : nat) (R I O : rtype)
    (isComponent : bool) po ro eo pi ri ei :
  reflect.Kind R <> Interface ->
  propertyListFromType E fuel (PointerTo O) isComponent = Returns (po, ro, eo) ->
  propertyListFromType E fuel (PointerTo I) isComponent = Returns (pi, ri, ei) ->
  exists spec errs,
    getResourceSchema E fuel R I O isComponent = Returns (spec, errs)
    /\ Description spec =
         (if Implements E (PointerTo (stripPointers R)) Annotated
          then default "" (Descriptions (Annotate E (PointerTo (stripPointers R))) !! "")
          else "").
Proof.
  intros HR HO HI. eexists _, _. split.
  - exact (getResourceSchema_returns E fuel R I O isComponent _ _ _ _ _ _ HR HO HI).
  - cbn [Description]. rewrite getAnnotated_pointer_free.
    by destruct (Implements E (PointerTo (stripPointers R)) Annotated).
Qed.

(** ** Collecting the fields of a struct *)

Section Fields.

Context (E : TypeEnv) (fuel : nat) (typ : rtype) (annotations : Annotator)
        (indicatePlain : bool).

Lemma exposedTags_cons (f : StructField) (fields : list StructField) :
  exposedTags E (f :: fields) =
    if Internal (ParseTag E f).1 then exposedTags E fields
    else (ParseTag E f).1 :: exposedTags E fields.
Proof.
  unfold exposedTags. cbn [fmap list_fmap]. rewrite filter_cons.
  case_decide as Hint; [by rewrite Hint|].
  by destruct (Internal (ParseTag E f).1).
Qed.

(** What a run of the loop that ends without an error has built. *)
Lemma fieldLoop_success (fields : list StructField) :
  forall props0 required0 props required,
    fieldLoop E fuel typ annotations indicatePlain fields props0 required0
      = Returns (props, required, None) ->
    dom props = dom props0 ∪ list_to_set (TagName <$> exposedTags E fields)
    /\ required = required0 ++ requiredNames E fields
    /\ Forall (fun f => (ParseTag E f).2 = None) fields.
Proof.
  induction fields as [|f rest IH]; intros props0 required0 props required Hrun.
  - cbn in Hrun. injection Hrun as <- <-.
    repeat split; [| by rewrite app_nil_r | constructor].
    cbn. by rewrite (right_id_L ∅ (∪)).
  - cbn [fieldLoop] in Hrun. unfold requiredNames in *.
    rewrite exposedTags_cons.
    destruct (ParseTag E f) as [tags [e|]] eqn:Hparse; [discriminate Hrun|].
    cbn [fst]. destruct (Internal tags) eqn:Hint.
    + destruct (IH _ _ _ _ Hrun) as (Hdom & Hreq & Hall).
      repeat split; [done | done | constructor; [by rewrite Hparse | done]].
    + destruct (serializeTypeAsPropertyType E fuel (stripPointers (fieldType f))
                  indicatePlain (ExternalType tags)) as [[serialized [e|]]| |];
        cbn [mbind outcome_bind] in Hrun; try discriminate Hrun.
      destruct (IH _ _ _ _ Hrun) as (Hdom & Hreq & Hall).
      repeat split.
      * rewrite Hdom, dom_insert_L. cbn [fmap list_fmap list_to_set].
        by rewrite (comm_L (∪) {[TagName tags]}), <- (assoc_L (∪)).
      * rewrite Hreq, filter_cons.
        destruct (Optional tags); cbn [negb]; case_decide; try done.
        cbn [fmap list_fmap]. by rewrite <- app_assoc.
      * constructor; [by rewrite Hparse | done].
Qed.

(** The loop over [pre ++ rest] is the loop over [pre], and then, unless that
    returned an error, the loop over [rest] from what [pre] built. *)
Lemma fieldLoop_app (pre rest : list StructField) :
  forall props0 required0,
    fieldLoop E fuel typ annotations indicatePlain (pre ++ rest) props0 required0
    = '(props1, required1, err) ←
        fieldLoop E fuel typ annotations indicatePlain pre props0 required0;
      match err with
      | Some e => Returns (∅, [], Some e)
      | None => fieldLoop E fuel typ annotations indicatePlain rest props1 required1
      end.
Proof.
  induction pre as [|f pre IH]; intros props0 required0; [reflexivity|].
  cbn [app fieldLoop].
  destruct (ParseTag E f) as [tags [e|]]; [reflexivity|].
  destruct (Internal tags); [apply IH|].
  destruct (serializeTypeAsPropertyType E fuel (stripPointers (fieldType f))
              indicatePlain (ExternalType tags)) as [[serialized [e|]]| |];
    cbn [mbind outcome_bind]; try reflexivity.
  apply IH.
Qed.

(** A field tagged internal is passed over before its type is looked at. *)
Lemma fieldLoop_internal_skipped (f : StructField) (tags : FieldTag)
    (rest : list StructField) props0 required0 :
  ParseTag E f = (tags, None) -> Internal tags = true ->
  fieldLoop E fuel typ annotations indicatePlain (f :: rest) props0 required0
  = fieldLoop E fuel typ annotations indicatePlain rest props0 required0.
Proof. intros Hparse Hint. cbn [fieldLoop]. by rewrite Hparse, Hint. Qed.

Lemma fieldLoop_fails (f : StructField) (e : error) (rest : list StructField)
    props0 required0 :
  fieldFails E fuel typ indicatePlain f e ->
  fieldLoop E fuel typ annotations indicatePlain (f :: rest) props0 required0
  = Returns (∅, [], Some e).
Proof.
  intros [(tags & cause & Hparse & ->) | (tags & ser & cause & Hparse & Hint & Hwalk & ->)];
    cbn [fieldLoop]; rewrite Hparse; [reflexivity|].
  by rewrite Hint, Hwalk.
Qed.

End Fields.

(** C8. When the collection of the fields of a struct ends without an error,
    the keys of the property map are exactly the tag names of the fields that
    are not internal, every name of the required list is such a key, and
    whatever is in the map or in the list is the tag name of a field that is
    not internal: an internal field gives nothing, whatever its type. *)
Theorem propertyListFromType_keys (E : TypeEnv) (fuel : nat) (typ : rtype)
    (indicatePlain : bool) (props : gmap string PropertySpec) (required : list string) :
  propertyListFromType E fuel typ indicatePlain = Returns (props, required, None) ->
  exists name fields,
    stripPointers typ = StructOf name fields
    /\ dom props = list_to_set (TagName <$> exposedTags E fields)
    /\ required = requiredNames E fields
    /\ (forall n, n ∈ required -> n ∈ dom props)
    /\ (forall n, n ∈ dom props \/ n ∈ required ->
          exists f tags, f ∈ fields /\ ParseTag E f = (tags, None)
                         /\ Internal tags = false /\ TagName tags = n).
Proof.
  unfold propertyListFromType. intros Hrun.
  destruct (stripPointers typ) as [| | | | |name fields] eqn:Htyp; try discriminate Hrun.
  exists name, fields.
  destruct (fieldLoop_success E fuel _ _ indicatePlain fields _ _ _ _ Hrun)
    as (Hdom & Hreq & Hparse).
  rewrite dom_empty_L, (left_id_L ∅ (∪)) in Hdom. cbn [app] in Hreq.
  assert (Hsub : forall n, n ∈ required -> n ∈ dom props).
  { intros n Hn. rewrite Hdom, Hreq in *. unfold requiredNames in Hn.
    apply elem_of_list_to_set. apply list_elem_of_fmap in Hn as (tags & -> & Hin).
    apply list_elem_of_fmap. exists tags. split; [done|].
    by apply list_elem_of_filter in Hin as [_ Hin]. }
  repeat split; try done.
  intros n Hn.
  assert (Hkey : n ∈ dom props) by (destruct Hn; auto).
  rewrite Hdom in Hkey. apply elem_of_list_to_set in Hkey.
  apply list_elem_of_fmap in Hkey as (tags & -> & Hin).
  unfold exposedTags in Hin. apply list_elem_of_filter in Hin as [Hint Hin].
  apply list_elem_of_fmap in Hin as (f & -> & Hf).
  exists f, (ParseTag E f).1. repeat split; try done.
  rewrite Forall_forall in Hparse. specialize (Hparse f Hf).
  destruct (ParseTag E f) as [tags err]; cbn in *. by subst.
Qed.

Lemma bucketState_collected :
  propertyListFromType Sample.env 2 Sample.bucketState false
  = Returns (bucketStateProps, ["name"; "tags"], None).
Proof. vm_compute. reflexivity. Qed.

Lemma propertyListFromType_keys_witness :
  propertyListFromType Sample.env 2 Sample.bucketState false
    = Returns (bucketStateProps, ["name"; "tags"], None)
  /\ (forall n, n ∈ ["name"; "tags"] -> n ∈ dom bucketStateProps).
Proof.
  assert (H : propertyListFromType Sample.env 2 Sample.bucketState false
              = Returns (bucketStateProps, ["name"; "tags"], None))
    by (vm_compute; reflexivity).
  split; [exact H|].
  destruct (propertyListFromType_keys Sample.env 2 Sample.bucketState false
              bucketStateProps ["name"; "tags"] H)
    as (name & fields & _ & _ & _ & Hsub & _).
  exact Hsub.
Defined.

(** C1 (as the code has it). The collector stops at the first field that
    fails: when the fields before [f] are collected without an error and [f]
    fails with [e], the collector returns the nil map, the nil list and [e]
    alone, whatever fields follow [f]. *)
Theorem propertyListFromType_first_error (E : TypeEnv) (fuel : nat) (name : string)
    (pre : list StructField) (f : StructField) (post : list StructField)
    (indicatePlain : bool) props1 required1 (e : error) :
  let typ := StructOf name (pre ++ f :: post) in
  fieldLoop E fuel typ (getAnnotated E typ) indicatePlain pre ∅ []
    = Returns (props1, required1, None) ->
  fieldFails E fuel typ indicatePlain f e ->
  propertyListFromType E fuel typ indicatePlain = Returns (∅, [], Some e).
Proof.
  intros typ Hpre Hfail. unfold propertyListFromType.
  change (stripPointers typ) with typ. unfold typ at 1.
  rewrite fieldLoop_app. fold typ. rewrite Hpre. cbn [mbind outcome_bind].
  by apply fieldLoop_fails.
Qed.

Lemma propertyListFromType_first_error_witness :
  propertyListFromType Sample.env 2 Sample.badArgs true
  = Returns (∅, [],
             Some (InvalidType (MapOf "" Sample.int_ Sample.string_) Sample.badArgs
                     "Labels" (MapKeyError Sample.int_))).
Proof.
  apply (propertyListFromType_first_error Sample.env 2 "badArgs"
           [mkField "Name" "name" Sample.string_]
           (mkField "Labels" "labels" (MapOf "" Sample.int_ Sample.string_))
           [mkField "Size" "size,optional" Sample.int_;
            mkField "Ratio" "ratio" Sample.float32_]
           true
           (<["name" := {| PropType := mkTypeSpec "string" "" true None None;
                           Secret := false; ReplaceOnChanges := false;
                           PropDescription := ""; Default := None;
                           DefaultInfo := None |}]> ∅)
           ["name"]).
  - vm_compute. reflexivity.
  - right. exists (Sample.parseTag (mkField "Labels" "labels"
                                      (MapOf "" Sample.int_ Sample.string_))).1,
      TypeSpec.zero, (MapKeyError Sample.int_).
    repeat split; vm_compute; reflexivity.
Defined.

(** C1 (as stated) fails: the first field of [badArgs] is sound and the fourth
    is defective as the second is, yet the collector returns no property for
    the first and no error for the fourth. *)
Lemma collector_stops_at_first_error :
  (exists props required err,
      propertyListFromType Sample.env 2 Sample.badArgs true
        = Returns (props, required, Some err)
      /\ props !! "name" = None /\ required = []
      /\ err = InvalidType (MapOf "" Sample.int_ Sample.string_) Sample.badArgs
                 "Labels" (MapKeyError Sample.int_))
  /\ serializeTypeAsPropertyType Sample.env 2 Sample.string_ true ""
     = Returns (mkTypeSpec "string" "" true None None, None)
  /\ serializeTypeAsPropertyType Sample.env 2 Sample.float32_ true ""
     = Returns (TypeSpec.zero, Some (UnsupportedKindError Sample.float32_)).
Proof.
  split; [|split; vm_compute; reflexivity].
  eexists _, _, _. split; [vm_compute; reflexivity|]. repeat split.
Qed.

Lemma getResourceSchema_aggregates_witness :
  exists spec,
    getResourceSchema Sample.env 2 Sample.Bucket Sample.badArgs Sample.invOutput true
      = Returns (spec, [InputTypeError Sample.badArgs badArgsError])
    /\ Properties spec = invOutputProps /\ Required spec = ["out"]
    /\ InputProperties spec = ∅ /\ RequiredInputs spec = []
    /\ IsComponent spec = true.
Proof.
  apply (getResourceSchema_aggregates Sample.env 2 Sample.Bucket Sample.badArgs
           Sample.invOutput true invOutputProps ["out"] None ∅ [] (Some badArgsError)).
  - discriminate.
  - vm_compute. reflexivity.
  - vm_compute. reflexivity.
Defined.

Lemma getResourceSchema_description_witness :
  exists spec errs,
    getResourceSchema Sample.env 2 Sample.Bucket Sample.badArgs Sample.invOutput true
      = Returns (spec, errs)
    /\ Description spec = "A bucket of objects.".
Proof.
  destruct (getResourceSchema_description Sample.env 2 Sample.Bucket Sample.badArgs
              Sample.invOutput true invOutputProps ["out"] None ∅ []
              (Some badArgsError))
    as (spec & errs & Hret & Hdesc).
  - discriminate.
  - vm_compute. reflexivity.
  - vm_compute. reflexivity.
  - exists spec, errs. split; [exact Hret|]. rewrite Hdesc. vm_compute. reflexivity.
Defined.

(** The test's pair of types assembles as the provider's documentation says. *)
Example getResourceSchema_inv :
  getResourceSchema Sample.env 2 Sample.Bucket Sample.invInput Sample.invOutput false
  = Returns ({| Properties :=
                  <["out" := {| PropType := mkTypeSpec "string" "" false None None;
                                Secret := true; ReplaceOnChanges := false;
                                PropDescription := ""; Default := None;
                                DefaultInfo := None |}]> ∅;
                Description := "A bucket of objects.";
                Required := ["out"];
                InputProperties :=
                  <["field" := {| PropType := mkTypeSpec "string" "" false None None;
                                  Secret := false; ReplaceOnChanges := false;
                                  PropDescription := ""; Default := None;
                                  DefaultInfo := None |}]> ∅;
                RequiredInputs := ["field"];
                IsComponent := false |}, []).
Proof. vm_compute. reflexivity. Qed.

(** ** What the walker gives for a base type *)

Lemma serialize_at_base (E : TypeEnv) (fuel : nat) (t : rtype) (indicatePlain : bool)
    (extType : string) (u : rtype) (wrapped : bool) :
  walksToBase E t extType u wrapped ->
  reflect.Kind u ∉ [Map; Array; Slice] ->
  serializeTypeAsPropertyType E (S fuel) t indicatePlain extType =
    match reflect.Kind u with
    | Bool => Returns (primitiveSpec "boolean" (indicatePlain && negb wrapped), None)
    | Int | Int64 | Int32 =>
        Returns (primitiveSpec "integer" (indicatePlain && negb wrapped), None)
    | Float64 => Returns (primitiveSpec "number" (indicatePlain && negb wrapped), None)
    | String_ => Returns (primitiveSpec "string" (indicatePlain && negb wrapped), None)
    | Interface => Returns (TypeSpec.ref "pulumi.json#/Any", None)
    | _ => Returns (TypeSpec.zero, Some (UnsupportedKindError u))
    end.
Proof.
  intros (He & Hr & Hs & Hu) Hk.
  cbn [serializeTypeAsPropertyType]. rewrite He, Hr. cbn [mbind outcome_bind].
  rewrite Hs, Hu. cbn [mbind outcome_bind].
  unfold primitiveSpec. rewrite (andb_comm indicatePlain).
  destruct (reflect.Kind u); try reflexivity; exfalso; apply Hk;
    repeat first [apply list_elem_of_here | apply list_elem_of_further].
Qed.

(** C4 (as the code has it). For a base type of kind bool, int, int32,
    int64, float64 or string the walker returns the primitive spec "boolean",
    "integer", "number" or "string"; for a base type of any other integer
    width, signed or unsigned, or of kind float32, it returns the
    unsupported-kind error. *)
Theorem serialize_primitive_kinds (E : TypeEnv) (fuel : nat) (t : rtype)
    (indicatePlain : bool) (extType : string) (u : rtype) (wrapped : bool) :
  walksToBase E t extType u wrapped ->
  let walk := serializeTypeAsPropertyType E (S fuel) t indicatePlain extType in
  let plain := indicatePlain && negb wrapped in
  (reflect.Kind u = Bool -> walk = Returns (primitiveSpec "boolean" plain, None))
  /\ (reflect.Kind u ∈ [Int; Int32; Int64] ->
      walk = Returns (primitiveSpec "integer" plain, None))
  /\ (reflect.Kind u = Float64 -> walk = Returns (primitiveSpec "number" plain, None))
  /\ (reflect.Kind u = String_ -> walk = Returns (primitiveSpec "string" plain, None))
  /\ (reflect.Kind u ∈ [Int8; Int16; Uint; Uint8; Uint16; Uint32; Uint64; Uintptr; Float32] ->
      walk = Returns (TypeSpec.zero, Some (UnsupportedKindError u))).
Proof.
  intros Hbase walk plain. subst walk plain.
  repeat split; intros Hk; try kind_cases Hk;
    (rewrite (serialize_at_base E fuel t indicatePlain extType u wrapped Hbase);
     rewrite Hk; [reflexivity | intros Hin; no_member Hin]).
Qed.

Lemma serialize_primitive_kinds_witness :
  walksToBase Sample.env (PointerTo Sample.StringInput) "" Sample.string_ true
  /\ serializeTypeAsPropertyType Sample.env 1 (PointerTo Sample.StringInput) true ""
     = Returns (primitiveSpec "string" false, None)
  /\ walksToBase Sample.env Sample.int_ "" Sample.int_ false
  /\ serializeTypeAsPropertyType Sample.env 1 Sample.int_ true ""
     = Returns (primitiveSpec "integer" true, None).
Proof.
  assert (H1 : walksToBase Sample.env (PointerTo Sample.StringInput) ""
                 Sample.string_ true) by (repeat split).
  assert (H2 : walksToBase Sample.env Sample.int_ "" Sample.int_ false)
    by (repeat split).
  split; [exact H1|]. split.
  - exact (proj1 (proj2 (proj2 (proj2
             (serialize_primitive_kinds Sample.env 0 _ true "" _ _ H1)))) eq_refl).
  - split; [exact H2|].
    apply (proj1 (proj2 (serialize_primitive_kinds Sample.env 0 _ true "" _ _ H2))).
    apply list_elem_of_here.
Defined.

(** C4 (as stated) fails: [int8], [uint] and [float32] are base types of
    integer and floating-point kind, and the walker returns the
    unsupported-kind error for each. *)
Lemma narrow_kinds_are_rejected :
  (walksToBase Sample.env Sample.int8_ "" Sample.int8_ false
   /\ reflect.Kind Sample.int8_ = Int8
   /\ serializeTypeAsPropertyType Sample.env 1 Sample.int8_ true ""
      = Returns (TypeSpec.zero, Some (UnsupportedKindError Sample.int8_)))
  /\ (walksToBase Sample.env (Scalar "uint" KUint) "" (Scalar "uint" KUint) false
      /\ serializeTypeAsPropertyType Sample.env 1 (Scalar "uint" KUint) true ""
         = Returns (TypeSpec.zero, Some (UnsupportedKindError (Scalar "uint" KUint))))
  /\ (walksToBase Sample.env Sample.float32_ "" Sample.float32_ false
      /\ reflect.Kind Sample.float32_ = Float32
      /\ serializeTypeAsPropertyType Sample.env 1 Sample.float32_ true ""
         = Returns (TypeSpec.zero, Some (UnsupportedKindError Sample.float32_))).
Proof. repeat split. Qed.

(** ** The plain flag *)

Lemma resourceReferenceToken_no_type (E : TypeEnv) (t : rtype) (extTag : string)
    (allow : bool) tk ok err :
  resourceReferenceToken E t extTag allow = Returns (tk, ok, err) ->
  TypeSpec.Type_ tk = "".
Proof.
  unfold resourceReferenceToken. intros H.
  repeat case_match; simplify_eq; reflexivity.
Qed.

(** C3 (as the code has it). A primitive result of the walk carries
    [Plain = plain-intent AND NOT wrapped], with the wrapped flag that
    [underlyingType] reports for the walked type; an array or map result
    carries [Plain = false], whatever the plain intent and the wrapped flag. *)
Theorem serialize_plain_flag (E : TypeEnv) (fuel : nat) (t : rtype)
    (indicatePlain : bool) (extType : string) (spec : TypeSpec) :
  serializeTypeAsPropertyType E fuel t indicatePlain extType = Returns (spec, None) ->
  (TypeSpec.Type_ spec ∈ ["boolean"; "integer"; "number"; "string"] ->
   exists u wrapped,
     underlyingType E (Some (stripPointers t)) = Returns (Some u, wrapped, None)
     /\ TypeSpec.Plain spec = indicatePlain && negb wrapped)
  /\ (TypeSpec.Type_ spec ∈ ["array"; "object"] -> TypeSpec.Plain spec = false).
Proof.
  destruct fuel as [|fuel]; [discriminate|].
  cbn [serializeTypeAsPropertyType]. intros H.
  destruct (isEnum E (stripPointers t)) as [token|].
  { injection H as <-. split; intros Hin; cbn in Hin; no_member Hin. }
  destruct (resourceReferenceToken E (stripPointers t) extType false)
    as [[[tk ok] err]| |] eqn:Hres; cbn [mbind outcome_bind] in H; try discriminate H.
  destruct ok.
  { destruct err; [discriminate H|]. injection H as <-.
    apply resourceReferenceToken_no_type in Hres.
    split; intros Hin; rewrite Hres in Hin; no_member Hin. }
  destruct (structReferenceToken E (stripPointers t)) as [[stk sok] serr].
  destruct sok.
  { destruct serr; [discriminate H|]. injection H as <-.
    split; intros Hin; cbn in Hin; no_member Hin. }
  destruct (underlyingType E (Some (stripPointers t))) as [[[ou wrapped] uerr]| |];
    cbn [mbind outcome_bind] in H; try discriminate H.
  destruct uerr; [discriminate H|]. destruct ou as [u|]; [|discriminate H].
  destruct (reflect.Kind u);
    try (injection H as <-; split; intros Hin; cbn in Hin;
         [first [no_member Hin
                | exists u, wrapped; split; [reflexivity | apply andb_comm]]
         | first [no_member Hin | reflexivity]]).
  - destruct (reflect_value.Elem u) as [elem| |];
      cbn [mbind outcome_bind] in H; try discriminate H.
    destruct (serializeTypeAsPropertyType E fuel elem indicatePlain extType)
      as [[el [e|]]| |]; cbn [mbind outcome_bind] in H; try discriminate H.
    injection H as <-. split; intros Hin; cbn in Hin; [no_member Hin | reflexivity].
  - destruct (reflect_value.Key u) as [key| |];
      cbn [mbind outcome_bind] in H; try discriminate H.
    destruct (negb (bool_decide (reflect.Kind key = String_))); [discriminate H|].
    destruct (reflect_value.Elem u) as [elem| |];
      cbn [mbind outcome_bind] in H; try discriminate H.
    destruct (serializeTypeAsPropertyType E fuel elem indicatePlain extType)
      as [[el [e|]]| |]; cbn [mbind outcome_bind] in H; try discriminate H.
    injection H as <-. split; intros Hin; cbn in Hin; [no_member Hin | reflexivity].
  - destruct (reflect_value.Elem u) as [elem| |];
      cbn [mbind outcome_bind] in H; try discriminate H.
    destruct (serializeTypeAsPropertyType E fuel elem indicatePlain extType)
      as [[el [e|]]| |]; cbn [mbind outcome_bind] in H; try discriminate H.
    injection H as <-. split; intros Hin; cbn in Hin; [no_member Hin | reflexivity].
Qed.

Lemma serialize_plain_flag_witness :
  serializeTypeAsPropertyType Sample.env 1 (PointerTo Sample.StringInput) true ""
    = Returns (primitiveSpec "string" false, None)
  /\ exists u wrapped,
       underlyingType Sample.env (Some Sample.StringInput)
         = Returns (Some u, wrapped, None)
       /\ false = true && negb wrapped.
Proof.
  assert (H : serializeTypeAsPropertyType Sample.env 1 (PointerTo Sample.StringInput)
                true "" = Returns (primitiveSpec "string" false, None))
    by reflexivity.
  split; [exact H|].
  apply (proj1 (serialize_plain_flag Sample.env 1 _ true "" _ H)).
  cbn. apply list_elem_of_further, list_elem_of_further, list_elem_of_further,
    list_elem_of_here.
Defined.

(** C3 (as stated) fails for containers: a slice of strings walked with the
    plain intent set is not wrapped, and its array spec has [Plain = false]. *)
Lemma slice_result_is_not_plain :
  serializeTypeAsPropertyType Sample.env 2 (SliceOf "" Sample.string_) true ""
    = Returns (mkTypeSpec "array" "" false (Some (primitiveSpec "string" true)) None,
               None)
  /\ underlyingType Sample.env (Some (SliceOf "" Sample.string_))
     = Returns (Some (SliceOf "" Sample.string_), false, None)
  /\ TypeSpec.Plain (mkTypeSpec "array" "" false (Some (primitiveSpec "string" true)) None)
     <> (true && negb false).
Proof. repeat split. discriminate. Qed.

(** ** Resolving wrappers twice *)

(** The type [underlyingType] returns has no pointer left on it. *)
Lemma underlyingType_pointer_free (E : TypeEnv) (t : option rtype) (u : rtype)
    (wrapped : bool) (err : option error) :
  underlyingType E t = Returns (Some u, wrapped, err) -> stripPointers u = u.
Proof.
  unfold underlyingType. intros H.
  destruct t as [t|]; cbn [fmap option_fmap option_map] in H; [|discriminate H].
  repeat case_match; simplify_eq;
    match goal with
    | Heq : stripPointers <$> ?o = Some u |- _ =>
        destruct o; cbn in Heq; simplify_eq; apply stripPointers_idem
    | |- _ => by rewrite !stripPointers_idem
    end.
Qed.

(** Resolving a type that is neither an input nor an output changes
    nothing; this is the second pass whenever the first pass returned a type
    without these capabilities. *)
Lemma underlyingType_of_base (E : TypeEnv) (u : rtype) :
  stripPointers u = u ->
  Implements E u PulumiInput = false ->
  Implements E (PointerTo u) PulumiOutput = false ->
  underlyingType E (Some u) = Returns (Some u, false, None).
Proof.
  intros Hu Hin Hout. unfold underlyingType. cbn [fmap option_fmap option_map].
  by rewrite !Hu, Hin, Hout.
Qed.

Lemma underlyingType_unwrapped_idempotent (E : TypeEnv) (t u : rtype) :
  underlyingType E (Some t) = Returns (Some u, false, None) ->
  underlyingType E (Some u) = Returns (Some u, false, None).
Proof.
  intros H. pose proof (underlyingType_pointer_free E _ _ _ _ H) as Hu.
  unfold underlyingType in H. cbn [fmap option_fmap option_map] in H.
  destruct (Implements E (stripPointers t) PulumiInput) eqn:Hin;
    destruct (Implements E (PointerTo (stripPointers t)) PulumiOutput) eqn:Hout;
    repeat case_match; simplify_eq.
  rewrite !stripPointers_idem.
  apply underlyingType_of_base; [apply stripPointers_idem | done | done].
Qed.

(** The pointer to [pulumi.StringInput] resolves to [string], and [string]
    resolves to itself, not wrapped. *)
Example underlyingType_string_input_twice :
  underlyingType Sample.env (Some (PointerTo Sample.StringInput))
    = Returns (Some Sample.string_, true, None)
  /\ underlyingType Sample.env (Some Sample.string_)
     = Returns (Some Sample.string_, false, None).
Proof. split; reflexivity. Qed.

(** C5 (where the code departs from it). [pulumi.AssetOutput] resolves to the
    interface [pulumi.Asset] with the wrapped flag set, and [Asset] is itself
    an input type whose name does not end in [Input]: the second resolution
    does not return [Asset] unwrapped, it returns an error. *)
Theorem underlyingType_asset_twice :
  underlyingType Sample.env (Some Sample.AssetOutput)
    = Returns (Some Sample.Asset, true, None)
  /\ underlyingType Sample.env (Some Sample.Asset)
     = Returns (None, false, Some (InputSuffixError "Asset")).
Proof. split; reflexivity. Qed.

(** * Further properties of the program *)

(** ** Annotations *)

(** X1. [getAnnotated] gives the same annotations for a type and for any
    chain of pointers to it. *)
Theorem getAnnotated_pointer_chain (E : TypeEnv) (n : nat) (t : rtype) :
  getAnnotated E (Nat.iter n PointerTo t) = getAnnotated E t.
Proof.
  rewrite (getAnnotated_pointer_free E (Nat.iter n PointerTo t)),
    (getAnnotated_pointer_free E t).
  by rewrite stripPointers_iter.
Qed.

(** ** Resolving wrappers *)

(** X2. The type [underlyingType] returns is never a pointer. *)
Theorem underlyingType_never_pointer (E : TypeEnv) (t : option rtype) (u : rtype)
    (wrapped : bool) (err : option error) :
  underlyingType E t = Returns (Some u, wrapped, err) ->
  reflect.Kind u <> Pointer.
Proof.
  intros H. rewrite <- (underlyingType_pointer_free E t u wrapped err H).
  apply stripPointers_not_pointer.
Qed.

Lemma underlyingType_never_pointer_witness :
  underlyingType Sample.env (Some (PointerTo (PointerTo Sample.StringOutput)))
    = Returns (Some Sample.string_, true, None)
  /\ reflect.Kind Sample.string_ <> Pointer.
Proof.
  assert (H : underlyingType Sample.env (Some (PointerTo (PointerTo Sample.StringOutput)))
              = Returns (Some Sample.string_, true, None)) by reflexivity.
  exact (conj H (underlyingType_never_pointer _ _ _ _ _ H)).
Defined.

(** X3. When [underlyingType] returns without an error, its flag says
    whether the pointer-free type is an input or an output; when it returns an
    error, the type is nil and the flag is false. *)
Theorem underlyingType_flag (E : TypeEnv) (t : rtype) (ou : option rtype)
    (wrapped : bool) (err : option error) :
  underlyingType E (Some t) = Returns (ou, wrapped, err) ->
  (err = None ->
   wrapped = Implements E (PointerTo (stripPointers t)) PulumiOutput
             || Implements E (stripPointers t) PulumiInput)
  /\ (err <> None -> ou = None /\ wrapped = false).
Proof.
  unfold underlyingType. cbn [fmap option_fmap option_map]. intros H.
  destruct (Implements E (stripPointers t) PulumiInput),
    (Implements E (PointerTo (stripPointers t)) PulumiOutput);
    repeat case_match; simplify_eq; split; intros; done.
Qed.

Lemma underlyingType_flag_witness :
  underlyingType Sample.env (Some Sample.Asset)
    = Returns (None, false, Some (InputSuffixError "Asset"))
  /\ (None (A := rtype) = None /\ false = false).
Proof.
  assert (H : underlyingType Sample.env (Some Sample.Asset)
              = Returns (None, false, Some (InputSuffixError "Asset"))) by reflexivity.
  split; [exact H|].
  apply (proj2 (underlyingType_flag _ _ _ _ _ H)). discriminate.
Defined.

(** X4. A type that is an input and not an output, and whose name does not
    end in [Input], is refused with the error that names it. *)
Theorem underlyingType_input_suffix (E : TypeEnv) (t : rtype) :
  Implements E (PointerTo (stripPointers t)) PulumiOutput = false ->
  Implements E (stripPointers t) PulumiInput = true ->
  strings.HasSuffix (reflect.Name (stripPointers t)) "Input" = false ->
  underlyingType E (Some t)
  = Returns (None, false, Some (InputSuffixError (reflect.Name (stripPointers t)))).
Proof.
  intros Hout Hin Hsuffix. unfold underlyingType. cbn [fmap option_fmap option_map].
  by rewrite Hout, Hin, !stripPointers_idem, Hsuffix.
Qed.

Lemma underlyingType_input_suffix_witness :
  underlyingType Sample.env (Some (PointerTo Sample.Asset))
  = Returns (None, false, Some (InputSuffixError "Asset")).
Proof.
  apply (underlyingType_input_suffix Sample.env (PointerTo Sample.Asset));
    reflexivity.
Defined.

(** X5. For an input type named [TInput] that is not an output: without a
    method [ToTOutput] the resolution returns the missing-method error; with
    one whose first result is no output it returns the output-contract error;
    with one whose first result is an output it returns the pointer-free
    element type of that output, flagged as wrapped. *)
Theorem underlyingType_input_method (E : TypeEnv) (t : rtype) :
  let base := stripPointers t in
  let T := strings.TrimSuffix (reflect.Name base) "Input" in
  Implements E (PointerTo base) PulumiOutput = false ->
  Implements E base PulumiInput = true ->
  strings.HasSuffix (reflect.Name base) "Input" = true ->
  (MethodByName E base ("To" +:+ T +:+ "Output") = None ->
   underlyingType E (Some t)
   = Returns (None, false, Some (InputMethodError (reflect.Name base) T)))
  /\ (forall outputT results,
        MethodByName E base ("To" +:+ T +:+ "Output") = Some (outputT :: results) ->
        reflect_value.zeroIs E outputT PulumiOutput = false ->
        exists strct,
          underlyingType E (Some t)
          = Returns (None, false, Some (OutputContractError strct T (reflect.Name base))))
  /\ (forall outputT results,
        MethodByName E base ("To" +:+ T +:+ "Output") = Some (outputT :: results) ->
        reflect_value.zeroIs E outputT PulumiOutput = true ->
        underlyingType E (Some t)
        = Returns (stripPointers <$> ElementType E outputT, true, None)).
Proof.
  intros base T Hout Hin Hsuffix. subst base T.
  unfold underlyingType. cbn [fmap option_fmap option_map].
  rewrite Hout, Hin, !stripPointers_idem, Hsuffix.
  split; [|split].
  - by intros ->.
  - intros outputT results -> ->. eauto.
  - by intros outputT results -> ->.
Qed.

Lemma underlyingType_input_method_witness :
  underlyingType Sample.env (Some (PointerTo Sample.StringInput))
  = Returns (Some Sample.string_, true, None).
Proof.
  apply (proj2 (proj2 (underlyingType_input_method Sample.env
                         (PointerTo Sample.StringInput) eq_refl eq_refl eq_refl))
           Sample.StringOutput []);
    reflexivity.
Defined.

(** X6. [underlyingType] gives the same result for a type and for any chain
    of pointers to it. *)
Theorem underlyingType_pointer_chain (E : TypeEnv) (n : nat) (t : rtype) :
  underlyingType E (Some (Nat.iter n PointerTo t)) = underlyingType E (Some t).
Proof.
  unfold underlyingType. cbn [fmap option_fmap option_map].
  by rewrite stripPointers_iter.
Qed.

(** X7. Resolving twice changes nothing when the first resolution returns a
    type that is itself neither an input nor an output: the second resolution
    returns the same type, not wrapped. *)
Theorem underlyingType_idempotent_on_base (E : TypeEnv) (t u : rtype)
    (wrapped : bool) :
  underlyingType E (Some t) = Returns (Some u, wrapped, None) ->
  Implements E u PulumiInput = false ->
  Implements E (PointerTo u) PulumiOutput = false ->
  underlyingType E (Some u) = Returns (Some u, false, None).
Proof.
  intros H Hin Hout.
  apply underlyingType_of_base; [|done|done].
  exact (underlyingType_pointer_free E _ _ _ _ H).
Qed.

Lemma underlyingType_idempotent_on_base_witness :
  underlyingType Sample.env (Some (PointerTo Sample.StringInput))
    = Returns (Some Sample.string_, true, None)
  /\ underlyingType Sample.env (Some Sample.string_)
     = Returns (Some Sample.string_, false, None).
Proof.
  assert (H : underlyingType Sample.env (Some (PointerTo Sample.StringInput))
              = Returns (Some Sample.string_, true, None)) by reflexivity.
  split; [exact H|].
  exact (underlyingType_idempotent_on_base Sample.env _ _ _ H eq_refl eq_refl).
Defined.

(** ** References to resources *)

(** X8. The locator tag and the permissive flag matter for resources of other
    packages only: for a type that gives its own token, or that is no
    resource, [resourceReferenceToken] returns the same whatever they are;
    a malformed tag cannot make it panic. *)
Theorem resourceReferenceToken_ignores_tag (E : TypeEnv) (t : rtype)
    (extTag extTag' : string) (allow allow' : bool) :
  implementsEither E t SchResource = true \/
  implementsEither E t PulumiResource = false ->
  resourceReferenceToken E t extTag allow = resourceReferenceToken E t extTag' allow'.
Proof.
  unfold implementsEither, resourceReferenceToken.
  intros [-> | Hno]; [done|].
  rewrite Hno. by destruct (Implements E t SchResource || _).
Qed.

Lemma resourceReferenceToken_ignores_tag_witness :
  resourceReferenceToken Sample.env Sample.Bucket "not a locator" false
  = resourceReferenceToken Sample.env Sample.Bucket "" true.
Proof.
  apply resourceReferenceToken_ignores_tag. left. reflexivity.
Defined.

(** X9. A resource type that has [GetToken] on its pointer only makes
    [resourceReferenceToken] panic: the zero value it asserts to
    [sch.Resource] is not a pointer. *)
Theorem resourceReferenceToken_pointer_receiver (E : TypeEnv) (t : rtype)
    (extTag : string) (allow : bool) :
  Implements E t SchResource = false ->
  Implements E (PointerTo t) SchResource = true ->
  resourceReferenceToken E t extTag allow = Panics (BadAssertion t).
Proof.
  intros Hval Hptr. unfold resourceReferenceToken, reflect_value.zeroIs.
  by rewrite Hval, Hptr, andb_false_r.
Qed.

Lemma resourceReferenceToken_pointer_receiver_witness :
  resourceReferenceToken receiverEnv Queue "" false = Panics (BadAssertion Queue).
Proof.
  apply (resourceReferenceToken_pointer_receiver receiverEnv Queue "" false);
    reflexivity.
Defined.

(** X10. For a type that gives its own token the walker returns the reference
    [#/resources/token], and when [GetToken] returns an error it returns that
    error with the empty type spec. *)
Theorem serialize_own_resource (E : TypeEnv) (fuel : nat) (t : rtype)
    (indicatePlain : bool) (extType : string) (tk : string) (err : option error) :
  isEnum E (stripPointers t) = None ->
  reflect_value.zeroIs E (stripPointers t) SchResource = true ->
  GetToken E (stripPointers t) = (tk, err) ->
  serializeTypeAsPropertyType E (S fuel) t indicatePlain extType
  = Returns (match err with
             | Some e => (TypeSpec.zero, Some e)
             | None => (TypeSpec.ref ("#/resources/" +:+ tk), None)
             end).
Proof.
  intros Henum Hzero Htoken. cbn [serializeTypeAsPropertyType].
  rewrite Henum. unfold resourceReferenceToken. rewrite Hzero.
  unfold reflect_value.zeroIs in Hzero. apply andb_true_iff in Hzero as [_ ->].
  cbn [orb]. rewrite Htoken. cbn [mbind outcome_bind]. by destruct err.
Qed.

Lemma serialize_own_resource_witness :
  serializeTypeAsPropertyType Sample.env 1 (PointerTo Sample.Bucket) true "ignored"
  = Returns (TypeSpec.ref "#/resources/pkg:index:Bucket", None).
Proof.
  apply (serialize_own_resource Sample.env 0 (PointerTo Sample.Bucket) true "ignored"
           "pkg:index:Bucket" None); reflexivity.
Defined.

(** ** The walker *)

(** More fuel does not change what the walker returns. *)
Lemma serialize_fuel_le (E : TypeEnv) (fuel : nat) :
  forall t indicatePlain extType r,
    serializeTypeAsPropertyType E fuel t indicatePlain extType = r ->
    r <> OutOfFuel ->
    forall fuel', fuel <= fuel' ->
      serializeTypeAsPropertyType E fuel' t indicatePlain extType = r.
Proof.
  induction fuel as [|fuel IH]; intros t p ext r H Hne fuel' Hle;
    [cbn in H; congruence|].
  destruct fuel' as [|m]; [lia|].
  cbn [serializeTypeAsPropertyType] in H |- *. subst r.
  destruct (isEnum E (stripPointers t)); [done|].
  destruct (resourceReferenceToken E (stripPointers t) ext false)
    as [[[tk ok] err]| |]; cbn [mbind outcome_bind] in *; try done.
  destruct ok; [done|].
  destruct (structReferenceToken E (stripPointers t)) as [[stk sok] serr].
  destruct sok; [done|].
  destruct (underlyingType E (Some (stripPointers t))) as [[[ou w] uerr]| |];
    cbn [mbind outcome_bind] in *; try done.
  destruct uerr; [done|]. destruct ou as [u|]; [|done].
  assert (Hrec : forall elem,
             serializeTypeAsPropertyType E fuel elem p ext <> OutOfFuel ->
             serializeTypeAsPropertyType E m elem p ext
             = serializeTypeAsPropertyType E fuel elem p ext).
  { intros elem Helem. apply (IH elem p ext); [done|done|lia]. }
  destruct (reflect.Kind u); try done.
  - destruct (reflect_value.Elem u) as [elem| |]; cbn [mbind outcome_bind] in *;
      try done.
    rewrite Hrec; [done|].
    intros Heq. apply Hne. by rewrite Heq.
  - destruct (reflect_value.Key u) as [key| |]; cbn [mbind outcome_bind] in *;
      try done.
    destruct (negb (bool_decide (reflect.Kind key = String_))); [done|].
    destruct (reflect_value.Elem u) as [elem| |]; cbn [mbind outcome_bind] in *;
      try done.
    rewrite Hrec; [done|].
    intros Heq. apply Hne. by rewrite Heq.
  - destruct (reflect_value.Elem u) as [elem| |]; cbn [mbind outcome_bind] in *;
      try done.
    rewrite Hrec; [done|].
    intros Heq. apply Hne. by rewrite Heq.
Qed.



Lemma resourceReferenceToken_strict_ref (E : TypeEnv) (t : rtype) (extTag : string)
    (tk : TypeSpec) :
  resourceReferenceToken E t extTag false = Returns (tk, true, None) ->
  TypeSpec.Type_ tk = "" /\ TypeSpec.Ref tk <> "".
Proof.
  unfold resourceReferenceToken. intros H.
  repeat case_match; simplify_eq; (split; [reflexivity|]);
    unfold TypeSpec.ref, TypeSpec.Ref; intros Hempty; discriminate Hempty.
Qed.

(** X12. The walker returns either an error with the empty type spec, or no
    error with a type spec that names its type in exactly one way, by [Type]
    or by [Ref]; it never returns the empty spec without an error. *)
Theorem serialize_spec_or_error (E : TypeEnv) (fuel : nat) (t : rtype)
    (indicatePlain : bool) (extType : string) (spec : TypeSpec) (err : option error) :
  serializeTypeAsPropertyType E fuel t indicatePlain extType = Returns (spec, err) ->
  (err <> None -> spec = TypeSpec.zero)
  /\ (err = None -> namesOneType spec).
Proof.
  destruct fuel as [|fuel]; [discriminate|].
  cbn [serializeTypeAsPropertyType]. intros H.
  assert (Hright : forall r, namesOneType (TypeSpec.ref ("#/" +:+ r))).
  { intros r. right. split; [reflexivity|]. intros Hempty. discriminate Hempty. }
  assert (Hleft : forall name plain items additional,
             name <> "" -> namesOneType (mkTypeSpec name "" plain items additional)).
  { intros. by left. }
  destruct (isEnum E (stripPointers t)) as [token|].
  { injection H as <- <-. split; [done|]. intros _. apply (Hright ("types/" +:+ token)). }
  destruct (resourceReferenceToken E (stripPointers t) extType false)
    as [[[tk ok] rerr]| |] eqn:Hres; cbn [mbind outcome_bind] in H; try discriminate H.
  destruct ok.
  { destruct rerr; injection H as <- <-; split; try done.
    intros _. right. by apply (resourceReferenceToken_strict_ref E _ _ _ Hres). }
  destruct (structReferenceToken E (stripPointers t)) as [[stk sok] serr].
  destruct sok.
  { destruct serr; injection H as <- <-; split; try done.
    intros _. apply (Hright ("types/" +:+ stk)). }
  destruct (underlyingType E (Some (stripPointers t))) as [[[ou wrapped] uerr]| |];
    cbn [mbind outcome_bind] in H; try discriminate H.
  destruct uerr; [by injection H as <- <-|]. destruct ou as [u|]; [|discriminate H].
  destruct (reflect.Kind u);
    try (injection H as <- <-; split; [done|intros Hnone];
         first [discriminate Hnone | by apply Hleft | by (right; split)]).
  - destruct (reflect_value.Elem u) as [elem| |];
      cbn [mbind outcome_bind] in H; try discriminate H.
    destruct (serializeTypeAsPropertyType E fuel elem indicatePlain extType)
      as [[el [e|]]| |]; cbn [mbind outcome_bind] in H; try discriminate H;
      injection H as <- <-; split; try done. intros _. by apply Hleft.
  - destruct (reflect_value.Key u) as [key| |];
      cbn [mbind outcome_bind] in H; try discriminate H.
    destruct (negb (bool_decide (reflect.Kind key = String_)));
      [by injection H as <- <-|].
    destruct (reflect_value.Elem u) as [elem| |];
      cbn [mbind outcome_bind] in H; try discriminate H.
    destruct (serializeTypeAsPropertyType E fuel elem indicatePlain extType)
      as [[el [e|]]| |]; cbn [mbind outcome_bind] in H; try discriminate H;
      injection H as <- <-; split; try done. intros _. by apply Hleft.
  - destruct (reflect_value.Elem u) as [elem| |];
      cbn [mbind outcome_bind] in H; try discriminate H.
    destruct (serializeTypeAsPropertyType E fuel elem indicatePlain extType)
      as [[el [e|]]| |]; cbn [mbind outcome_bind] in H; try discriminate H;
      injection H as <- <-; split; try done. intros _. by apply Hleft.
Qed.

Lemma serialize_spec_or_error_witness :
  serializeTypeAsPropertyType Sample.env 2 (MapOf "" Sample.int_ Sample.string_) true ""
    = Returns (TypeSpec.zero, Some (MapKeyError Sample.int_))
  /\ TypeSpec.zero = TypeSpec.zero.
Proof.
  assert (H : serializeTypeAsPropertyType Sample.env 2
                (MapOf "" Sample.int_ Sample.string_) true ""
              = Returns (TypeSpec.zero, Some (MapKeyError Sample.int_))) by reflexivity.
  split; [exact H|].
  apply (proj1 (serialize_spec_or_error _ _ _ _ _ _ _ H)). discriminate.
Defined.

Lemma resourceReferenceToken_never_plain (E : TypeEnv) (t : rtype) (extTag : string)
    (allow : bool) tk ok err :
  resourceReferenceToken E t extTag allow = Returns (tk, ok, err) ->
  neverPlain tk = true.
Proof.
  unfold resourceReferenceToken. intros H.
  repeat case_match; simplify_eq; reflexivity.
Qed.

Lemma serialize_never_plain_spec (E : TypeEnv) (fuel : nat) :
  forall t extType spec err,
    serializeTypeAsPropertyType E fuel t false extType = Returns (spec, err) ->
    neverPlain spec = true.
Proof.
  induction fuel as [|fuel IH]; intros t extType spec err; [discriminate|].
  cbn [serializeTypeAsPropertyType]. intros H.
  destruct (isEnum E (stripPointers t)) as [token|]; [by injection H as <- <-|].
  destruct (resourceReferenceToken E (stripPointers t) extType false)
    as [[[tk ok] rerr]| |] eqn:Hres; cbn [mbind outcome_bind] in H; try discriminate H.
  destruct ok.
  { destruct rerr; injection H as <- <-; [reflexivity|].
    exact (resourceReferenceToken_never_plain E _ _ _ _ _ _ Hres). }
  destruct (structReferenceToken E (stripPointers t)) as [[stk sok] serr].
  destruct sok; [by destruct serr; injection H as <- <-|].
  destruct (underlyingType E (Some (stripPointers t))) as [[[ou wrapped] uerr]| |];
    cbn [mbind outcome_bind] in H; try discriminate H.
  destruct uerr; [by injection H as <- <-|]. destruct ou as [u|]; [|discriminate H].
  destruct (reflect.Kind u);
    try (injection H as <- <-; cbn; by rewrite ?andb_false_r).
  - destruct (reflect_value.Elem u) as [elem| |];
      cbn [mbind outcome_bind] in H; try discriminate H.
    destruct (serializeTypeAsPropertyType E fuel elem false extType)
      as [[el [e|]]| |] eqn:Hel; cbn [mbind outcome_bind] in H; try discriminate H;
      injection H as <- <-; [reflexivity|].
    cbn. by rewrite (IH _ _ _ _ Hel).
  - destruct (reflect_value.Key u) as [key| |];
      cbn [mbind outcome_bind] in H; try discriminate H.
    destruct (negb (bool_decide (reflect.Kind key = String_)));
      [by injection H as <- <-|].
    destruct (reflect_value.Elem u) as [elem| |];
      cbn [mbind outcome_bind] in H; try discriminate H.
    destruct (serializeTypeAsPropertyType E fuel elem false extType)
      as [[el [e|]]| |] eqn:Hel; cbn [mbind outcome_bind] in H; try discriminate H;
      injection H as <- <-; [reflexivity|].
    cbn. by rewrite (IH _ _ _ _ Hel).
  - destruct (reflect_value.Elem u) as [elem| |];
      cbn [mbind outcome_bind] in H; try discriminate H.
    destruct (serializeTypeAsPropertyType E fuel elem false extType)
      as [[el [e|]]| |] eqn:Hel; cbn [mbind outcome_bind] in H; try discriminate H;
      injection H as <- <-; [reflexivity|].
    cbn. by rewrite (IH _ _ _ _ Hel).
Qed.

(** X13. Walked without the plain intent, a type gives a spec in which
    nothing is marked plain, at any depth of arrays and maps. *)
Theorem serialize_never_plain (E : TypeEnv) (fuel : nat) (t : rtype)
    (extType : string) (spec : TypeSpec) (err : option error) :
  serializeTypeAsPropertyType E fuel t false extType = Returns (spec, err) ->
  neverPlain spec = true.
Proof. apply serialize_never_plain_spec. Qed.

Lemma serialize_never_plain_witness :
  serializeTypeAsPropertyType Sample.env 3
    (MapOf "" Sample.string_ (SliceOf "" Sample.int_)) false ""
    = Returns (mkTypeSpec "object" "" false None
                 (Some (mkTypeSpec "array" "" false
                          (Some (primitiveSpec "integer" false)) None)), None)
  /\ neverPlain (mkTypeSpec "object" "" false None
                   (Some (mkTypeSpec "array" "" false
                            (Some (primitiveSpec "integer" false)) None))) = true.
Proof.
  assert (H : serializeTypeAsPropertyType Sample.env 3
                (MapOf "" Sample.string_ (SliceOf "" Sample.int_)) false ""
              = Returns (mkTypeSpec "object" "" false None
                           (Some (mkTypeSpec "array" "" false
                                    (Some (primitiveSpec "integer" false)) None)), None))
    by reflexivity.
  exact (conj H (serialize_never_plain _ _ _ _ _ _ H)).
Defined.

(** X14. A struct type that is no enum, no resource and no output is
    referred to by its token and is not walked: one unit of fuel is enough,
    whatever its fields are, so a struct that contains itself ends the walk.
    When the token cannot be had, the walker returns that error. *)
Theorem serialize_struct_reference (E : TypeEnv) (fuel : nat) (t : rtype)
    (indicatePlain : bool) (extType : string) (tk : string) (err : option error) :
  isEnum E (stripPointers t) = None ->
  resourceReferenceToken E (stripPointers t) extType false
    = Returns (TypeSpec.zero, false, None) ->
  reflect.Kind (stripPointers t) = Struct ->
  Implements E (stripPointers t) PulumiOutput = false ->
  introspectGetToken E (stripPointers t) = (tk, err) ->
  serializeTypeAsPropertyType E (S fuel) t indicatePlain extType
  = Returns (match err with
             | Some e => (TypeSpec.zero, Some e)
             | None => (TypeSpec.ref ("#/types/" +:+ tk), None)
             end).
Proof.
  intros Henum Hres Hkind Hout Htoken. cbn [serializeTypeAsPropertyType].
  rewrite Henum, Hres. cbn [mbind outcome_bind].
  unfold structReferenceToken. rewrite Hkind, Hout, Htoken.
  rewrite bool_decide_eq_true_2 by done. cbn. by destruct err.
Qed.

Lemma serialize_struct_reference_witness :
  serializeTypeAsPropertyType Sample.env 1 (PointerTo Sample.badArgs) true ""
  = Returns (TypeSpec.ref "#/types/pkg:index:badArgs", None).
Proof.
  apply (serialize_struct_reference Sample.env 0 (PointerTo Sample.badArgs) true ""
           "pkg:index:badArgs" None); reflexivity.
Defined.

(** X15. A map whose key type is not of kind string gives the map-key error
    that names the key type, whatever the element type is. *)
Theorem serialize_map_key (E : TypeEnv) (fuel : nat) (t : rtype)
    (indicatePlain : bool) (extType : string) (name : string) (key elem : rtype)
    (wrapped : bool) :
  walksToBase E t extType (MapOf name key elem) wrapped ->
  reflect.Kind key <> String_ ->
  serializeTypeAsPropertyType E (S fuel) t indicatePlain extType
  = Returns (TypeSpec.zero, Some (MapKeyError key)).
Proof.
  intros (He & Hr & Hs & Hu) Hkey. cbn [serializeTypeAsPropertyType].
  rewrite He, Hr. cbn [mbind outcome_bind]. rewrite Hs, Hu.
  cbn [mbind outcome_bind reflect.Kind reflect_value.Key].
  by rewrite bool_decide_eq_false_2.
Qed.

Lemma serialize_map_key_witness :
  serializeTypeAsPropertyType Sample.env 1
    (MapOf "" Sample.int_ (Scalar "" KChan)) true ""
  = Returns (TypeSpec.zero, Some (MapKeyError Sample.int_)).
Proof.
  apply (serialize_map_key Sample.env 0 _ true "" "" Sample.int_ (Scalar "" KChan) false);
    [repeat split | discriminate].
Defined.

(** X16. Where [schemaNameForType] names a kind, the walker gives a base type
    of that kind the same name; where the walker gives a primitive for a kind
    that [schemaNameForType] does not name (int32, int64), the latter
    panics. *)
Theorem schemaNameForType_agrees (E : TypeEnv) (fuel : nat) (t : rtype)
    (indicatePlain : bool) (extType : string) (u : rtype) (wrapped : bool) :
  walksToBase E t extType u wrapped ->
  (forall name,
      schemaNameForType (reflect.Kind u) = Some name ->
      serializeTypeAsPropertyType E (S fuel) t indicatePlain extType
      = Returns (primitiveSpec name (indicatePlain && negb wrapped), None))
  /\ (reflect.Kind u ∈ [Int32; Int64] ->
      schemaNameForType (reflect.Kind u) = None
      /\ serializeTypeAsPropertyType E (S fuel) t indicatePlain extType
         = Returns (primitiveSpec "integer" (indicatePlain && negb wrapped), None)).
Proof.
  intros Hbase. split.
  - intros name Hname.
    rewrite (serialize_at_base E fuel t indicatePlain extType u wrapped Hbase).
    + by destruct (reflect.Kind u); simplify_eq/=.
    + intros Hin. destruct (reflect.Kind u); simplify_eq/=; no_member Hin.
  - intros Hk.
    rewrite (serialize_at_base E fuel t indicatePlain extType u wrapped Hbase).
    + by kind_cases Hk; rewrite Hk.
    + intros Hin. kind_cases Hk; rewrite Hk in Hin; no_member Hin.
Qed.

Lemma schemaNameForType_agrees_witness :
  schemaNameForType (reflect.Kind Sample.string_) = Some "string"
  /\ serializeTypeAsPropertyType Sample.env 1 Sample.StringOutput true ""
     = Returns (primitiveSpec "string" false, None).
Proof.
  split; [reflexivity|].
  apply (proj1 (schemaNameForType_agrees Sample.env 0 Sample.StringOutput true ""
                  Sample.string_ true ltac:(repeat split)) "string" eq_refl).
Defined.

(** ** The field collector *)

Section FieldsMore.

Context (E : TypeEnv) (typ : rtype) (annotations : Annotator) (indicatePlain : bool).

Lemma fieldLoop_values (fuel : nat) (all fields : list StructField) :
  forall props0 required0 props required,
    (forall f, f ∈ fields -> f ∈ all) ->
    storedFromFields E fuel annotations indicatePlain all props0 ->
    fieldLoop E fuel typ annotations indicatePlain fields props0 required0
      = Returns (props, required, None) ->
    storedFromFields E fuel annotations indicatePlain all props.
Proof.
  induction fields as [|f rest IH]; intros props0 required0 props required Hsub Hst Hrun.
  - cbn in Hrun. by injection Hrun as <- <-.
  - cbn [fieldLoop] in Hrun.
    assert (Hrest : forall g, g ∈ rest -> g ∈ all)
      by (intros g Hg; apply Hsub; by apply list_elem_of_further).
    destruct (ParseTag E f) as [tags [e|]] eqn:Hparse; [discriminate Hrun|].
    destruct (Internal tags) eqn:Hint; [by apply (IH _ _ _ _ Hrest Hst Hrun)|].
    destruct (serializeTypeAsPropertyType E fuel (stripPointers (fieldType f))
                indicatePlain (ExternalType tags)) as [[serialized [e|]]| |] eqn:Hwalk;
      cbn [mbind outcome_bind] in Hrun; try discriminate Hrun.
    apply (IH _ _ _ _ Hrest) in Hrun; [done|].
    intros n spec Hn. destruct (decide (TagName tags = n)) as [<-|Hne].
    + rewrite lookup_insert_eq in Hn. injection Hn as <-.
      exists f, tags, serialized. repeat split; try done.
      apply Hsub, list_elem_of_here.
    + rewrite lookup_insert_ne in Hn by done. by apply Hst.
Qed.

Lemma fieldLoop_error (fuel : nat) (fields : list StructField) :
  forall props0 required0 props required e,
    fieldLoop E fuel typ annotations indicatePlain fields props0 required0
      = Returns (props, required, Some e) ->
    props = ∅ /\ required = [] /\ isFieldError typ fields e.
Proof.
  induction fields as [|f rest IH]; intros props0 required0 props required e Hrun;
    [discriminate Hrun|].
  cbn [fieldLoop] in Hrun.
  assert (Hlater : props = ∅ /\ required = [] /\ isFieldError typ rest e ->
                   props = ∅ /\ required = [] /\ isFieldError typ (f :: rest) e).
  { intros (-> & -> & g & cause & Hg & Hshape). repeat split.
    exists g, cause. split; [by apply list_elem_of_further | done]. }
  destruct (ParseTag E f) as [tags [cause|]].
  { injection Hrun as <- <- <-. repeat split.
    exists f, cause. split; [apply list_elem_of_here | by left]. }
  destruct (Internal tags); [by apply Hlater, (IH _ _ _ _ _ Hrun)|].
  destruct (serializeTypeAsPropertyType E fuel (stripPointers (fieldType f))
              indicatePlain (ExternalType tags)) as [[serialized [cause|]]| |];
    cbn [mbind outcome_bind] in Hrun; try discriminate Hrun.
  - injection Hrun as <- <- <-. repeat split.
    exists f, cause. split; [apply list_elem_of_here | by right].
  - by apply Hlater, (IH _ _ _ _ _ Hrun).
Qed.

Lemma fieldLoop_fuel_le (fuel fuel' : nat) (fields : list StructField) :
  fuel <= fuel' ->
  forall props0 required0 r,
    fieldLoop E fuel typ annotations indicatePlain fields props0 required0 = r ->
    r <> OutOfFuel ->
    fieldLoop E fuel' typ annotations indicatePlain fields props0 required0 = r.
Proof.
  intros Hle. induction fields as [|f rest IH]; intros props0 required0 r Hrun Hne;
    [done|].
  cbn [fieldLoop] in Hrun |- *. subst r.
  destruct (ParseTag E f) as [tags [cause|]]; [done|].
  destruct (Internal tags); [by apply IH|].
  destruct (serializeTypeAsPropertyType E fuel (stripPointers (fieldType f))
              indicatePlain (ExternalType tags)) as [[serialized err]| |] eqn:Hwalk;
    [| |by cbn in Hne];
    rewrite (serialize_fuel_le E fuel _ _ _ _ Hwalk ltac:(discriminate) fuel' Hle);
    cbn [mbind outcome_bind] in *; [|done].
  destruct err; [done|]. by apply IH.
Qed.

End FieldsMore.

(** X17. The collector gives the same result for a struct type and for any
    chain of pointers to it. *)
Theorem propertyListFromType_pointer_chain (E : TypeEnv) (fuel n : nat) (typ : rtype)
    (indicatePlain : bool) :
  propertyListFromType E fuel (Nat.iter n PointerTo typ) indicatePlain
  = propertyListFromType E fuel typ indicatePlain.
Proof. unfold propertyListFromType. by rewrite stripPointers_iter. Qed.

(** X18. On success every property of the map is the one built for some
    field of the struct that is not internal: its type spec is what the walker
    returns for the pointer-free field type with the field's locator tag, its
    secret and replace-on-changes flags are those of the tag, and its
    description and default are the annotations under the tag name. *)
Theorem propertyListFromType_values (E : TypeEnv) (fuel : nat) (typ : rtype)
    (indicatePlain : bool) (props : gmap string PropertySpec) (required : list string) :
  propertyListFromType E fuel typ indicatePlain = Returns (props, required, None) ->
  exists name fields,
    stripPointers typ = StructOf name fields
    /\ storedFromFields E fuel (getAnnotated E (stripPointers typ)) indicatePlain
         fields props.
Proof.
  unfold propertyListFromType. intros Hrun.
  destruct (stripPointers typ) as [| | | | |name fields] eqn:Htyp; try discriminate Hrun.
  exists name, fields. split; [done|].
  eapply (fieldLoop_values E _ _ indicatePlain fuel fields fields); [done| |exact Hrun].
  intros n spec Hn. by rewrite lookup_empty in Hn.
Qed.

Lemma propertyListFromType_values_witness :
  propertyListFromType Sample.env 2 Sample.bucketState false
    = Returns (bucketStateProps, ["name"; "tags"], None)
  /\ exists name fields,
       stripPointers Sample.bucketState = StructOf name fields
       /\ storedFromFields Sample.env 2 (getAnnotated Sample.env Sample.bucketState)
            false fields bucketStateProps.
Proof.
  assert (H : propertyListFromType Sample.env 2 Sample.bucketState false
              = Returns (bucketStateProps, ["name"; "tags"], None))
    by (vm_compute; reflexivity).
  exact (conj H (propertyListFromType_values _ _ _ _ _ _ H)).
Defined.

(** X19. The collector never stores a default-environment block with an
    empty list of variables. *)
Theorem propertyListFromType_default_info (E : TypeEnv) (fuel : nat) (typ : rtype)
    (indicatePlain : bool) (props : gmap string PropertySpec) (required : list string)
    (n : string) (spec : PropertySpec) (info : DefaultSpec) :
  propertyListFromType E fuel typ indicatePlain = Returns (props, required, None) ->
  props !! n = Some spec ->
  DefaultInfo spec = Some info ->
  Environment info <> [].
Proof.
  unfold propertyListFromType. intros Hrun Hn Hinfo.
  destruct (stripPointers typ) as [| | | | |name fields] eqn:Htyp; try discriminate Hrun.
  assert (Hst : storedFromFields E fuel (getAnnotated E (StructOf name fields))
                  indicatePlain fields props).
  { eapply (fieldLoop_values E _ _ indicatePlain fuel fields fields); [done| |exact Hrun].
    intros m s Hm. by rewrite lookup_empty in Hm. }
  destruct (Hst n spec Hn) as (f & tags & ser & _ & _ & _ & _ & _ & ->).
  cbn [DefaultInfo propertyFor] in Hinfo.
  destruct (DefaultEnvs _ !! TagName tags) as [[|env envs]|]; simplify_eq.
  discriminate.
Qed.

Lemma propertyListFromType_default_info_witness :
  propertyListFromType annotatedEnv 2 Sample.bucketState false
    = Returns (annotatedStateProps, ["name"; "tags"], None)
  /\ Environment {| Environment := ["BUCKET_NAME"] |} <> [].
Proof.
  assert (H : propertyListFromType annotatedEnv 2 Sample.bucketState false
              = Returns (annotatedStateProps, ["name"; "tags"], None))
    by (vm_compute; reflexivity).
  split; [exact H|].
  apply (propertyListFromType_default_info annotatedEnv 2 Sample.bucketState false
           annotatedStateProps ["name"; "tags"] "name"
           {| PropType := mkTypeSpec "string" "" false None None;
              Secret := false; ReplaceOnChanges := false;
              PropDescription := "The name of the bucket.";
              Default := Some (AnyString "bucket");
              DefaultInfo := Some {| Environment := ["BUCKET_NAME"] |} |}
           {| Environment := ["BUCKET_NAME"] |} H);
    [vm_compute|]; reflexivity.
Defined.



(** ** The assembler *)

Lemma propertyListFromType_fuel_le (E : TypeEnv) (fuel fuel' : nat) (typ : rtype)
    (indicatePlain : bool) r :
  fuel <= fuel' ->
  propertyListFromType E fuel typ indicatePlain = r -> r <> OutOfFuel ->
  propertyListFromType E fuel' typ indicatePlain = r.
Proof.
  unfold propertyListFromType. intros Hle Hrun Hne.
  destruct (stripPointers typ); try done.
  by apply (fieldLoop_fuel_le E _ _ indicatePlain fuel fuel').
Qed.

Lemma getResourceSchema_returned (E : TypeEnv) (fuel : nat) (R I O : rtype)
    (isComponent : bool) (spec : ResourceSpec) (errs : list error) :
  getResourceSchema E fuel R I O isComponent = Returns (spec, errs) ->
  exists po ro eo pi ri ei,
    propertyListFromType E fuel (PointerTo O) isComponent = Returns (po, ro, eo)
    /\ propertyListFromType E fuel (PointerTo I) isComponent = Returns (pi, ri, ei)
    /\ Properties spec = po /\ Required spec = ro
    /\ InputProperties spec = pi /\ RequiredInputs spec = ri
    /\ errs = outputErrors O eo ++ inputErrors I ei.
Proof.
  unfold getResourceSchema. intros H.
  destruct (bool_decide (reflect.Kind R = Interface)); [discriminate H|].
  destruct (propertyListFromType E fuel (PointerTo O) isComponent)
    as [[[po ro] eo]| |]; cbn [mbind outcome_bind] in H; try discriminate H.
  destruct (propertyListFromType E fuel (PointerTo I) isComponent)
    as [[[pi ri] ei]| |]; cbn [mbind outcome_bind] in H; try discriminate H.
  injection H as <- <-. exists po, ro, eo, pi, ri, ei.
  repeat split. by destruct eo, ei.
Qed.

(** More fuel does not change what the assembler returns: once it ends
    with a schema or a panic, it ends the same way with any larger bound on
    the walk. *)
Lemma getResourceSchema_fuel_monotone (E : TypeEnv) (fuel fuel' : nat)
    (R I O : rtype) (isComponent : bool) r :
  fuel <= fuel' ->
  getResourceSchema E fuel R I O isComponent = r -> r <> OutOfFuel ->
  getResourceSchema E fuel' R I O isComponent = r.
Proof.
  unfold getResourceSchema. intros Hle Hrun Hne. subst r.
  destruct (bool_decide (reflect.Kind R = Interface)); [done|].
  destruct (propertyListFromType E fuel (PointerTo O) isComponent)
    as [[[po ro] eo]| |] eqn:HO; [| |by cbn in Hne];
    rewrite (propertyListFromType_fuel_le E fuel fuel' _ _ _ Hle HO ltac:(discriminate));
    cbn [mbind outcome_bind] in *; [|done].
  destruct (propertyListFromType E fuel (PointerTo I) isComponent)
    as [[[pi ri] ei]| |] eqn:HI; [| |by cbn in Hne];
    rewrite (propertyListFromType_fuel_le E fuel fuel' _ _ _ Hle HI ltac:(discriminate));
    done.
Qed.

(** X21. A schema assembled without any error describes exactly the exposed
    fields of the two types: the keys of its properties are the tag names of
    the output type's fields that are not internal and its required list the
    names of those that are not optional, in order; likewise for the inputs
    and the input type. *)
Theorem getResourceSchema_without_errors (E : TypeEnv) (fuel : nat) (R I O : rtype)
    (isComponent : bool) (spec : ResourceSpec) :
  getResourceSchema E fuel R I O isComponent = Returns (spec, []) ->
  exists nameO fieldsO nameI fieldsI,
    stripPointers O = StructOf nameO fieldsO
    /\ stripPointers I = StructOf nameI fieldsI
    /\ dom (Properties spec) = list_to_set (TagName <$> exposedTags E fieldsO)
    /\ Required spec = requiredNames E fieldsO
    /\ dom (InputProperties spec) = list_to_set (TagName <$> exposedTags E fieldsI)
    /\ RequiredInputs spec = requiredNames E fieldsI.
Proof.
  intros H.
  destruct (getResourceSchema_returned E fuel R I O isComponent spec [] H)
    as (po & ro & eo & pi & ri & ei & HO & HI & -> & -> & -> & -> & Herrs).
  destruct eo; [discriminate Herrs|]. destruct ei; [discriminate Herrs|].
  unfold propertyListFromType in HO, HI. cbn [stripPointers] in HO, HI.
  destruct (stripPointers O) as [| | | | |nameO fieldsO]; try discriminate HO.
  destruct (stripPointers I) as [| | | | |nameI fieldsI]; try discriminate HI.
  destruct (fieldLoop_success E fuel _ _ isComponent fieldsO _ _ _ _ HO)
    as (HdomO & HreqO & _).
  destruct (fieldLoop_success E fuel _ _ isComponent fieldsI _ _ _ _ HI)
    as (HdomI & HreqI & _).
  rewrite dom_empty_L, (left_id_L ∅ (∪)) in HdomO, HdomI.
  by exists nameO, fieldsO, nameI, fieldsI.
Qed.

Lemma getResourceSchema_without_errors_witness :
  getResourceSchema Sample.env 2 Sample.Bucket Sample.invInput Sample.bucketState false
    = Returns (bucketSchema, [])
  /\ dom (Properties bucketSchema) = {[ "name"; "size"; "tags" ]}
  /\ Required bucketSchema = ["name"; "tags"]
  /\ dom (InputProperties bucketSchema) = {[ "field" ]}
  /\ RequiredInputs bucketSchema = ["field"].
Proof.
  assert (Hrun : getResourceSchema Sample.env 2 Sample.Bucket Sample.invInput
                   Sample.bucketState false = Returns (bucketSchema, []))
    by (vm_compute; reflexivity).
  split; [exact Hrun|].
  destruct (getResourceSchema_without_errors _ _ _ _ _ _ _ Hrun)
    as (nameO & fieldsO & nameI & fieldsI & HO & HI & Hp & Hr & Hip & Hir).
  injection HO as <- <-. injection HI as <- <-.
  rewrite Hp, Hip. repeat split; reflexivity.
Defined.

Lemma propertyListFromType_error_nil (E : TypeEnv) (fuel : nat) (typ : rtype)
    (indicatePlain : bool) props required e :
  propertyListFromType E fuel typ indicatePlain = Returns (props, required, Some e) ->
  props = ∅ /\ required = [].
Proof.
  unfold propertyListFromType. intros Hrun.
  destruct (stripPointers typ) as [| | | | |name fields]; try discriminate Hrun.
  by destruct (fieldLoop_error E _ _ indicatePlain fuel fields _ _ _ _ _ Hrun)
    as (-> & -> & _).
Qed.

(** X22. The pass that fails gives the schema nothing: whenever the error
    list holds the error of the output type, the properties and the required
    list of the schema are nil, and whenever it holds the error of the input
    type, the input properties and the required inputs are nil; the list
    never holds more than two errors. *)
Theorem getResourceSchema_failed_pass (E : TypeEnv) (fuel : nat) (R I O : rtype)
    (isComponent : bool) (spec : ResourceSpec) (errs : list error) :
  getResourceSchema E fuel R I O isComponent = Returns (spec, errs) ->
  (forall e, OutputTypeError O e ∈ errs -> Properties spec = ∅ /\ Required spec = [])
  /\ (forall e, InputTypeError I e ∈ errs ->
        InputProperties spec = ∅ /\ RequiredInputs spec = [])
  /\ length errs <= 2.
Proof.
  intros H.
  destruct (getResourceSchema_returned E fuel R I O isComponent spec errs H)
    as (po & ro & eo & pi & ri & ei & HO & HI & -> & -> & -> & -> & ->).
  split; [|split].
  - intros e He. destruct eo as [eo|].
    + by destruct (propertyListFromType_error_nil E fuel _ _ _ _ _ HO) as [-> ->].
    + destruct ei; cbn in He; [|by apply elem_of_nil in He].
      apply list_elem_of_singleton in He. discriminate He.
  - intros e He. destruct ei as [ei|].
    + by destruct (propertyListFromType_error_nil E fuel _ _ _ _ _ HI) as [-> ->].
    + destruct eo; cbn in He; [|by apply elem_of_nil in He].
      apply list_elem_of_singleton in He. discriminate He.
  - destruct eo, ei; cbn; lia.
Qed.

Lemma getResourceSchema_failed_pass_witness :
  getResourceSchema Sample.env 2 Sample.Bucket Sample.badArgs Sample.invOutput true
    = Returns (badArgsSchema, [InputTypeError Sample.badArgs badArgsError])
  /\ InputProperties badArgsSchema = ∅ /\ RequiredInputs badArgsSchema = [].
Proof.
  assert (Hrun : getResourceSchema Sample.env 2 Sample.Bucket Sample.badArgs
                   Sample.invOutput true
                 = Returns (badArgsSchema, [InputTypeError Sample.badArgs badArgsError]))
    by (vm_compute; reflexivity).
  split; [exact Hrun|].
  apply (proj1 (proj2 (getResourceSchema_failed_pass _ _ _ _ _ _ _ _ Hrun))
           badArgsError).
  apply list_elem_of_here.
Defined.

(** X23. The schema of a resource that is not a component has no plain
    type spec in any property or input property, at any depth. *)
Theorem getResourceSchema_resource_never_plain (E : TypeEnv) (fuel : nat)
    (R I O : rtype) (spec : ResourceSpec) (errs : list error) (n : string)
    (prop : PropertySpec) :
  getResourceSchema E fuel R I O false = Returns (spec, errs) ->
  Properties spec !! n = Some prop \/ InputProperties spec !! n = Some prop ->
  neverPlain (PropType prop) = true.
Proof.
  intros H Hn.
  destruct (getResourceSchema_returned E fuel R I O false spec errs H)
    as (po & ro & eo & pi & ri & ei & HO & HI & Hpo & _ & Hpi & _ & _).
  rewrite Hpo, Hpi in Hn.
  assert (Hpass : forall typ props required err,
             propertyListFromType E fuel typ false = Returns (props, required, err) ->
             props !! n = Some prop -> neverPlain (PropType prop) = true).
  { intros typ props required err Hrun Hprop. destruct err as [e|].
    - destruct (propertyListFromType_error_nil E fuel _ _ _ _ _ Hrun) as [-> _].
      by rewrite lookup_empty in Hprop.
    - unfold propertyListFromType in Hrun.
      destruct (stripPointers typ) as [| | | | |name fields]; try discriminate Hrun.
      assert (Hst : storedFromFields E fuel (getAnnotated E (StructOf name fields))
                      false fields props).
      { eapply (fieldLoop_values E _ _ false fuel fields fields); [done| |exact Hrun].
        intros m s Hm. by rewrite lookup_empty in Hm. }
      destruct (Hst n prop Hprop) as (f & tags & ser & _ & _ & _ & _ & Hwalk & ->).
      exact (serialize_never_plain_spec E fuel _ _ _ _ Hwalk). }
  destruct Hn as [Hn|Hn]; eauto.
Qed.

Lemma getResourceSchema_resource_never_plain_witness :
  getResourceSchema Sample.env 2 Sample.Bucket Sample.invInput Sample.bucketState false
    = Returns (bucketSchema, [])
  /\ neverPlain (mkTypeSpec "object" "" false None
                   (Some (mkTypeSpec "string" "" false None None))) = true.
Proof.
  assert (Hrun : getResourceSchema Sample.env 2 Sample.Bucket Sample.invInput
                   Sample.bucketState false = Returns (bucketSchema, []))
    by (vm_compute; reflexivity).
  split; [exact Hrun|].
  apply (getResourceSchema_resource_never_plain _ _ _ _ _ _ _ "tags"
           {| PropType := mkTypeSpec "object" "" false None
                            (Some (mkTypeSpec "string" "" false None None));
              Secret := true; ReplaceOnChanges := false; PropDescription := "";
              Default := None; DefaultInfo := None |} Hrun).
  left. reflexivity.
Defined.

(** X24. When the output type is not a struct, the assembler panics on
    counting its fields, and so it does when the output pass returns and the
    input type is not a struct. *)
Theorem getResourceSchema_not_a_struct (E : TypeEnv) (fuel : nat) (R I O : rtype)
    (isComponent : bool) :
  reflect.Kind R <> Interface ->
  (reflect.Kind (stripPointers O) <> Struct ->
   getResourceSchema E fuel R I O isComponent = Panics (NotAStruct (stripPointers O)))
  /\ (forall po ro eo,
        propertyListFromType E fuel (PointerTo O) isComponent = Returns (po, ro, eo) ->
        reflect.Kind (stripPointers I) <> Struct ->
        getResourceSchema E fuel R I O isComponent
        = Panics (NotAStruct (stripPointers I))).
Proof.
  intros HR. unfold getResourceSchema.
  rewrite bool_decide_eq_false_2 by exact HR.
  assert (Hpanic : forall typ,
             reflect.Kind (stripPointers typ) <> Struct ->
             propertyListFromType E fuel (PointerTo typ) isComponent
             = Panics (NotAStruct (stripPointers typ))).
  { intros typ Hk. unfold propertyListFromType. cbn [stripPointers].
    by destruct (stripPointers typ). }
  split.
  - intros HO. by rewrite (Hpanic O HO).
  - intros po ro eo HO HI. rewrite HO. cbn [mbind outcome_bind].
    by rewrite (Hpanic I HI).
Qed.

Lemma getResourceSchema_not_a_struct_witness :
  getResourceSchema Sample.env 2 Sample.Bucket Sample.invInput
    (PointerTo Sample.string_) false
  = Panics (NotAStruct Sample.string_).
Proof.
  apply (proj1 (getResourceSchema_not_a_struct Sample.env 2 Sample.Bucket
                  Sample.invInput (PointerTo Sample.string_) false
                  ltac:(discriminate))).
  discriminate.
Defined.
